(** * Real-time face and eye detection: a shallow embedding of [main.py]

    The development follows the layout of the program:

    - numbers: the clock readings of [time.time()] and everything the
      program computes from them are Python floats, that is IEEE 754
      binary64 numbers, and are [float] here, with the operations of the
      kernel; the decimal constants handed to OpenCV are rationals ([Q]),
      and so is the division by the detection scale 0.5, which is exact in
      binary64; [int(.)] is truncation toward zero;
    - [Fps]: the [FPSCalculator] class with its bounded [deque]; the clock
      readings are arguments;
    - [Numpy]: two-dimensional arrays with Python slice semantics;
    - [CV2]: the OpenCV operations the program calls, as an interface, and
      the shapes OpenCV documents for the images they return, as laws;
    - [Detect]: [detect_faces_and_eyes];
    - [Loop]: the rendering functions, the body of the [while True] loop of
      [main], the loop itself and the [finally] block, as functions over
      explicit state that return the calls made to the outside world;
    - [Stub]: deterministic stand-ins for OpenCV, used at concrete inputs;
    - [Startup]: the search for the cascade files, the construction of the
      classifiers, the camera and [main].

    Definitions come first, theorems afterwards. *)

From Stdlib Require Import ZArith QArith Qround List Lia Bool Arith.
From Stdlib Require Import Floats.
From Stdlib Require String Ascii.
Import ListNotations.

Local Open Scope Q_scope.

(* ====================================================================== *)
(** ** Numbers *)
(* ====================================================================== *)

(** The conversion of a Python [int] to [float] that an operation on an
    [int] and a [float] makes: the nearest binary64 number, ties to
    even. *)
Definition float_of_int (n : Z) : float :=
  SF2Prim (binary_normalize prec emax n 0%Z false).

(** Python's [int(q)] on a float: truncation toward zero. *)
Definition py_int (q : Q) : Z := Z.quot (Qnum q) (Z.pos (Qden q)).

(** Python's built-in [sum] on floats: it starts at [0] and adds from the
    left, each addition rounded to binary64.  (CPython 3.12 and later
    also carry the rounding errors of the additions along and add them at
    the end, which can change the last bit of a sum; sums without
    rounding error, and the sum of three times [0.1] used below, are the
    same under both.) *)
Definition py_sum (l : list float) : float :=
  fold_left PrimFloat.add l 0%float.

(** [len(.)] as the float it becomes in a division of a float by it. *)
Definition py_len (l : list float) : float :=
  float_of_int (Z.of_nat (length l)).

(* ====================================================================== *)
(** ** Constants and configuration (main.py, lines 23-44) *)
(* ====================================================================== *)

Definition DETECTION_SCALE : Q := 1 # 2.
Definition FPS_QUEUE_SIZE : Z := 30%Z.

Definition FACE_SCALE_FACTOR : Q := 11 # 10.
Definition FACE_MIN_NEIGHBORS : Z := 5%Z.
Definition FACE_MIN_SIZE : Z * Z := (30, 30)%Z.

Definition EYE_SCALE_FACTOR : Q := 11 # 10.
Definition EYE_MIN_NEIGHBORS : Z := 3%Z.
Definition EYE_MIN_SIZE : Z * Z := (15, 15)%Z.

Definition color := (Z * Z * Z)%type.
Definition COLOR_FACE : color := (0, 255, 0)%Z.
Definition COLOR_EYE : color := (255, 0, 0)%Z.
Definition COLOR_TEXT : color := (255, 255, 255)%Z.
Definition COLOR_BG : color := (0, 0, 0)%Z.

(* ====================================================================== *)
(** ** FPSCalculator (main.py, lines 300-331) *)
(* ====================================================================== *)

Module Fps.

(** [collections.deque(maxlen=n)]: the items, oldest first, and the bound. *)
Record deque := mkDeque {
  items : list float;
  maxlen : nat
}.

(** [deque(maxlen=n)]; a negative bound raises [ValueError]. *)
Definition deque_new (n : Z) : option deque :=
  if (n <? 0)%Z then None else Some (mkDeque [] (Z.to_nat n)).

(** [deque.append]: the item is put on the right; if the deque then holds
    more than [maxlen] items, one item is popped from the left. *)
Definition append (d : deque) (x : float) : deque :=
  let l := items d ++ [x] in
  mkDeque (if (maxlen d <? length l)%nat then tl l else l) (maxlen d).

Record FPSCalculator := mkFPS {
  frame_times : deque;
  last_time : float
}.

(** The default of the parameter [queue_size]. *)
Definition default_queue_size : Z := 30%Z.

(** [FPSCalculator.__init__(queue_size)]; [now] is what [time.time()]
    returns during construction. *)
Definition init (queue_size : Z) (now : float) : option FPSCalculator :=
  match deque_new queue_size with
  | Some d => Some (mkFPS d now)
  | None => None
  end.

(** The window as left by the first half of [update]: the measured delta
    is appended only when it is positive. *)
Definition pushed (self : FPSCalculator) (current_time : float) : deque :=
  let frame_time := (current_time - last_time self)%float in
  if (0 <? frame_time)%float
  then append (frame_times self) frame_time
  else frame_times self.

(** The value computed by the second half of [update] from the window.
    The integer [0] of line 329 and the float [0.0] of line 331 are both
    the float zero here: they compare equal and are formatted alike. *)
Definition fps_of (window : list float) : float :=
  if (0 <? length window)%nat then
    let avg_frame_time := (py_sum window / py_len window)%float in
    if (0 <? avg_frame_time)%float
    then (1 / avg_frame_time)%float else 0%float
  else 0%float.

(** [FPSCalculator.update]; [current_time] is what [time.time()] returns
    in the call.  The result is the new object state and the returned
    value. *)
Definition update (self : FPSCalculator) (current_time : float)
  : FPSCalculator * float :=
  let frame_times' := pushed self current_time in
  (mkFPS frame_times' current_time, fps_of (items frame_times')).

(** A sequence of [update] calls, the clock returning [ts] in turn: the
    final state and the values returned, in call order. *)
Fixpoint updates (self : FPSCalculator) (ts : list float)
  : FPSCalculator * list float :=
  match ts with
  | [] => (self, [])
  | t :: ts' =>
      let '(self1, r) := update self t in
      let '(self2, rs) := updates self1 ts' in
      (self2, r :: rs)
  end.


(** The state holds no more samples than its bound. *)
Definition wf (self : FPSCalculator) : Prop :=
  (length (items (frame_times self)) <= maxlen (frame_times self))%nat.

(** The frame times a run of [update] calls measures, the previous clock
    reading being [last]: each reading minus the one before it. *)
Fixpoint deltas (last : float) (ts : list float) : list float :=
  match ts with
  | [] => []
  | t :: ts' => (t - last)%float :: deltas t ts'
  end.

(** The frame times among [l] that [update] appends to the window. *)
Definition kept (l : list float) : list float :=
  filter (fun x => (0 <? x)%float) l.

(** The newest [n] items of a list. *)
Definition newest {A} (n : nat) (l : list A) : list A :=
  skipn (length l - n) l.

End Fps.

(* ====================================================================== *)
(** ** NumPy arrays and Python slices *)
(* ====================================================================== *)

Module Numpy.

(** A two-dimensional array: its shape and its items.  A slice is a view
    with a shape of its own, also when it has no rows. *)
Record ndarray (A : Type) := mkArray {
  nrows : nat;
  ncols : nat;
  item : nat -> nat -> A
}.

Arguments mkArray {A} _ _ _.
Arguments nrows {A} _.
Arguments ncols {A} _.
Arguments item {A} _ _ _.

(** A slice bound [i] on an axis of length [n]: a negative bound counts
    from the end, and every bound is clipped to [0 .. n]. *)
Definition clip (n : nat) (i : Z) : nat :=
  if (i <? 0)%Z
  then Z.to_nat (Z.max (i + Z.of_nat n) 0)
  else Z.to_nat (Z.min i (Z.of_nat n)).

(** [start:stop] on an axis of length [n]: first index and length. *)
Definition slice_axis (n : nat) (start stop : Z) : nat * nat :=
  let lo := clip n start in
  let hi := clip n stop in
  (lo, (hi - lo)%nat).

(** [a[r0:r1, c0:c1]]. *)
Definition slice2 {A} (a : ndarray A) (r0 r1 c0 c1 : Z) : ndarray A :=
  let '(ro, rl) := slice_axis (nrows a) r0 r1 in
  let '(co, cl) := slice_axis (ncols a) c0 c1 in
  mkArray rl cl (fun i j => item a (ro + i) (co + j)).

End Numpy.

Import Numpy.

(* ====================================================================== *)
(** ** The OpenCV interface used by the program *)
(* ====================================================================== *)

(** A rectangle as the program holds it: the tuple [(x, y, w, h)]. *)
Definition box := (Z * Z * Z * Z)%type.

Definition bgr := (Z * Z * Z)%type.

(** [cvRound]: rounding to the nearest integer, ties to even. *)
Definition cvRound (q : Q) : Z :=
  let f := Qfloor q in
  match Qcompare (q - inject_Z f) (1 # 2) with
  | Lt => f
  | Gt => (f + 1)%Z
  | Eq => if Z.even f then f else (f + 1)%Z
  end.

Definition CASCADE_SCALE_IMAGE : Z := 2%Z.

(** The three OpenCV operations [detect_faces_and_eyes] calls.  A cascade
    is an opaque classifier handle. *)
Class CV2 := {
  cascade : Type;
  resize : ndarray bgr -> Q -> Q -> ndarray bgr;
  cvtColor_BGR2GRAY : ndarray bgr -> ndarray Z;
  detectMultiScale :
    cascade -> ndarray Z -> Q -> Z -> Z * Z -> Z -> list box
}.

(** A box lies inside an image of the given shape. *)
Definition box_in_shape (rows cols : nat) (b : box) : Prop :=
  let '(x, y, w, h) := b in
  (0 <= x /\ 0 <= y /\ 0 <= w /\ 0 <= h /\
   x + w <= Z.of_nat cols /\ y + h <= Z.of_nat rows)%Z.

(** The shapes OpenCV documents for the images these operations return:
    [resize] with scale factors and no explicit size returns an image of
    [Size(round(fx * src.cols), round(fy * src.rows))], and the colour
    conversion keeps the shape. *)
Class CV2_laws (cv : CV2) : Prop := {
  resize_rows : forall a fx fy,
    nrows (resize a fx fy) =
    Z.to_nat (cvRound (inject_Z (Z.of_nat (nrows a)) * fy));
  resize_cols : forall a fx fy,
    ncols (resize a fx fy) =
    Z.to_nat (cvRound (inject_Z (Z.of_nat (ncols a)) * fx));
  cvtColor_rows : forall a, nrows (cvtColor_BGR2GRAY a) = nrows a;
  cvtColor_cols : forall a, ncols (cvtColor_BGR2GRAY a) = ncols a
}.

(** A property of particular cascades, which OpenCV does not promise (its
    documentation allows rectangles that are partially outside the image)
    and which the program does not check: every rectangle they report
    lies inside the image they were given. *)
Definition reports_inside (cv : CV2) : Prop :=
  forall c img sf mn ms fl b,
    In b (detectMultiScale c img sf mn ms fl) ->
    box_in_shape (nrows img) (ncols img) b.

(* ====================================================================== *)
(** ** Calls to the outside world *)
(* ====================================================================== *)

(** The image a drawing call writes to. *)
Inductive canvas := OnFrame | OnOverlay.

(** The lines of the statistics panel and of the console, before
    formatting. *)
Inductive text :=
| TxtFaces (face_count : Z)
| TxtEyes (eye_count : Z)
| TxtFps (fps : float)
| TxtProcessing (processing_time : float)
| TxtBlank
| TxtHintQuit
| TxtHintScreenshot.

Inductive message :=
| MsgCaptureFailed
| MsgQuit
| MsgScreenshotSaved
| MsgPerformance (avg_fps fps processing_time : float)
    (face_count eye_count : Z)
| MsgCleanup
| MsgSessionStats (frame_count : Z) (total_time avg_fps : float)
| MsgClosed.

Section Events.

Context {cv : CV2}.

Inductive event :=
| EvResize (src : ndarray bgr) (fx fy : Q)
| EvCvtColor (src : ndarray bgr)
| EvDetect (c : cascade) (img : ndarray Z)
    (scaleFactor : Q) (minNeighbors : Z) (minSize : Z * Z) (flags : Z)
| EvRectangle (on : canvas) (pt1 pt2 : Z * Z) (c : color) (thickness : Z)
| EvCopy
| EvAddWeighted (alpha beta gamma : Q)
| EvPutText (t : text) (org : Z * Z) (font_scale : Q) (c : color)
    (thickness : Z)
| EvImshow
| EvWaitKey (delay : Z)
| EvImwrite
| EvPrint (m : message)
| EvRelease
| EvDestroyAllWindows.

(** A computation that returns a value and the calls it made, in order. *)
Definition M (A : Type) : Type := (A * list event)%type.

Definition ret {A} (a : A) : M A := (a, []).

Definition bind {A B} (m : M A) (k : A -> M B) : M B :=
  let '(a, t1) := m in
  let '(b, t2) := k a in
  (b, t1 ++ t2).

Definition emit (e : event) : M unit := (tt, [e]).

Definition value {A} (m : M A) : A := fst m.
Definition trace {A} (m : M A) : list event := snd m.

(** The classifier invocations of a trace, in order. *)
Definition detect_calls (t : list event)
  : list (cascade * ndarray Z * Q * Z * (Z * Z) * Z) :=
  flat_map (fun e =>
    match e with
    | EvDetect c img sf mn ms fl => [(c, img, sf, mn, ms, fl)]
    | _ => []
    end) t.

(** The rectangles drawn on the frame in a given colour, in order. *)
Definition rectangles (col : color) (t : list event)
  : list ((Z * Z) * (Z * Z)) :=
  flat_map (fun e =>
    match e with
    | EvRectangle OnFrame p1 p2 (b, g, r) _ =>
        let '(b', g', r') := col in
        if ((b =? b') && (g =? g') && (r =? r'))%Z then [(p1, p2)] else []
    | _ => []
    end) t.

(** The face counts written to the statistics panel. *)
Definition shown_face_counts (t : list event) : list Z :=
  flat_map (fun e =>
    match e with
    | EvPutText (TxtFaces n) _ _ _ _ => [n]
    | _ => []
    end) t.

(** The frames shown in the window. *)
Definition shown_frames (t : list event) : nat :=
  length (filter (fun e => match e with EvImshow => true | _ => false end) t).

(** The console messages of a trace, in order. *)
Definition printed (t : list event) : list message :=
  flat_map (fun e => match e with EvPrint m => [m] | _ => [] end) t.

End Events.

Declare Scope m_scope.
Delimit Scope m_scope with M.
Notation "x <- m ;; k" := (bind m (fun x => k))
  (at level 61, m at next level, right associativity) : m_scope.
Notation "m ;;; k" := (bind m (fun _ => k))
  (at level 61, right associativity) : m_scope.

(* ====================================================================== *)
(** ** detect_faces_and_eyes (main.py, lines 181-234) *)
(* ====================================================================== *)

Module Detect.

Section WithCV.

Context {cv : CV2}.

Local Open Scope m_scope.

Definition cv_resize (src : ndarray bgr) (fx fy : Q) : M (ndarray bgr) :=
  emit (EvResize src fx fy) ;;; ret (resize src fx fy).

Definition cv_cvtColor (src : ndarray bgr) : M (ndarray Z) :=
  emit (EvCvtColor src) ;;; ret (cvtColor_BGR2GRAY src).

Definition cv_detect (c : cascade) (img : ndarray Z)
    (scaleFactor : Q) (minNeighbors : Z) (minSize : Z * Z) (flags : Z)
  : M (list box) :=
  emit (EvDetect c img scaleFactor minNeighbors minSize flags) ;;;
  ret (detectMultiScale c img scaleFactor minNeighbors minSize flags).

(** One element of the list comprehension of lines 209-211, for a scale
    factor [s]: each of the four numbers is divided by [s] and truncated. *)
Definition scale_back (s : Q) (b : box) : box :=
  let '(x, y, w, h) := b in
  (py_int (inject_Z x / s), py_int (inject_Z y / s),
   py_int (inject_Z w / s), py_int (inject_Z h / s)).

(** The region of interest of a face: [gray_full[fy:fy+fh, fx:fx+fw]]. *)
Definition face_roi (gray_full : ndarray Z) (face : box) : ndarray Z :=
  let '(fx, fy, fw, fh) := face in
  slice2 gray_full fy (fy + fh) fx (fx + fw).

(** The inner loop of lines 231-232: every eye of a face is appended to
    [eyes], moved by the origin of the face. *)
Definition append_eyes (fx fy : Z) (eyes eyes_in_face : list box)
  : list box :=
  fold_left
    (fun acc e => let '(ex, ey, ew, eh) := e in
                  acc ++ [((fx + ex)%Z, (fy + ey)%Z, ew, eh)])
    eyes_in_face eyes.

(** The loop of lines 217-232 over the faces, [eyes] being the list built
    so far. *)
Fixpoint eye_loop (eye_cascade : cascade) (gray_full : ndarray Z)
    (faces : list box) (eyes : list box) : M (list box) :=
  match faces with
  | [] => ret eyes
  | (fx, fy, fw, fh) :: rest =>
      let roi_gray := face_roi gray_full (fx, fy, fw, fh) in
      eyes_in_face <-
        cv_detect eye_cascade roi_gray
          EYE_SCALE_FACTOR EYE_MIN_NEIGHBORS EYE_MIN_SIZE
          CASCADE_SCALE_IMAGE ;;
      eye_loop eye_cascade gray_full rest
        (append_eyes fx fy eyes eyes_in_face)
  end.

Definition detect_faces_and_eyes (frame : ndarray bgr)
    (face_cascade eye_cascade : cascade) : M (list box * list box) :=
  small_frame <- cv_resize frame DETECTION_SCALE DETECTION_SCALE ;;
  gray <- cv_cvtColor small_frame ;;
  faces <-
    cv_detect face_cascade gray
      FACE_SCALE_FACTOR FACE_MIN_NEIGHBORS FACE_MIN_SIZE
      CASCADE_SCALE_IMAGE ;;
  let faces := map (scale_back DETECTION_SCALE) faces in
  gray_full <- cv_cvtColor frame ;;
  eyes <- eye_loop eye_cascade gray_full faces [] ;;
  ret (faces, eyes).

(** The call the loop makes for one face, as an event. *)
Definition eye_event (eye_cascade : cascade) (gray_full : ndarray Z)
    (face : box) : event :=
  EvDetect eye_cascade (face_roi gray_full face)
    EYE_SCALE_FACTOR EYE_MIN_NEIGHBORS EYE_MIN_SIZE CASCADE_SCALE_IMAGE.

(** The faces [detect_faces_and_eyes] returns for a frame. *)
Definition faces_of (face_cascade : cascade) (frame : ndarray bgr)
  : list box :=
  map (scale_back DETECTION_SCALE)
    (detectMultiScale face_cascade
       (cvtColor_BGR2GRAY (resize frame DETECTION_SCALE DETECTION_SCALE))
       FACE_SCALE_FACTOR FACE_MIN_NEIGHBORS FACE_MIN_SIZE
       CASCADE_SCALE_IMAGE).

(** The eyes one face contributes to the result: what the eye cascade
    reports on the region of the face, in full-frame coordinates. *)
Definition eyes_of_face (eye_cascade : cascade) (gray_full : ndarray Z)
    (face : box) : list box :=
  let '(fx, fy, fw, fh) := face in
  map (fun e : box => let '(ex, ey, ew, eh) := e in
                      ((fx + ex)%Z, (fy + ey)%Z, ew, eh))
    (detectMultiScale eye_cascade (face_roi gray_full face)
       EYE_SCALE_FACTOR EYE_MIN_NEIGHBORS EYE_MIN_SIZE CASCADE_SCALE_IMAGE).

(** The eye-classifier invocation made for one face. *)
Definition eye_call (eye_cascade : cascade) (gray_full : ndarray Z)
    (face : box) : cascade * ndarray Z * Q * Z * (Z * Z) * Z :=
  (eye_cascade, face_roi gray_full face,
   EYE_SCALE_FACTOR, EYE_MIN_NEIGHBORS, EYE_MIN_SIZE, CASCADE_SCALE_IMAGE).

(** The face-classifier invocation made for a frame. *)
Definition face_call (face_cascade : cascade) (frame : ndarray bgr)
  : cascade * ndarray Z * Q * Z * (Z * Z) * Z :=
  (face_cascade,
   cvtColor_BGR2GRAY (resize frame DETECTION_SCALE DETECTION_SCALE),
   FACE_SCALE_FACTOR, FACE_MIN_NEIGHBORS, FACE_MIN_SIZE,
   CASCADE_SCALE_IMAGE).

(** The image the face cascade is given: the downscaled frame in grey. *)
Definition small_gray (frame : ndarray bgr) : ndarray Z :=
  cvtColor_BGR2GRAY (resize frame DETECTION_SCALE DETECTION_SCALE).

(** The rectangles the face cascade reports for a frame, in the
    coordinates of the downscaled frame. *)
Definition raw_faces (face_cascade : cascade) (frame : ndarray bgr)
  : list box :=
  detectMultiScale face_cascade (small_gray frame)
    FACE_SCALE_FACTOR FACE_MIN_NEIGHBORS FACE_MIN_SIZE CASCADE_SCALE_IMAGE.


End WithCV.




(** A box lies within the extent of a frame [cols] wide and [rows] high. *)
Definition within_frame (rows cols : Z) (b : box) : Prop :=
  let '(x, y, w, h) := b in
  (x >= 0 /\ y >= 0 /\ x + w <= cols /\ y + h <= rows)%Z.

(** The scaling by the factor [f] that the rescaling is to invert: a
    coordinate multiplied by [f], exactly. *)
Definition scaled (f : Q) (v : Q) : Q := v * f.

(** A coordinate [c'] recovers the downscaled coordinate [c] for the
    factor [f]: it is within one pixel of the exact full-resolution value
    [c / f], and scaling it by [f] gives [c] back within one pixel. *)
Definition recovers (f : Q) (c c' : Z) : Prop :=
  (inject_Z c / f - 1 < inject_Z c' /\ inject_Z c' < inject_Z c / f + 1) /\
  (inject_Z c - 1 < scaled f (inject_Z c') /\
   scaled f (inject_Z c') < inject_Z c + 1).

End Detect.

(* ====================================================================== *)
(** ** Rendering and the capture loop (main.py, lines 240-294, 375-465) *)
(* ====================================================================== *)

Module Loop.

Import Detect.

Section WithCV.

Context {cv : CV2}.

Local Open Scope m_scope.

(** A [for] loop whose body only makes calls. *)
Fixpoint for_each {A} (l : list A) (f : A -> M unit) : M unit :=
  match l with
  | [] => ret tt
  | a :: l' => f a ;;; for_each l' f
  end.

Definition draw_box (c : color) (b : box) : M unit :=
  let '(x, y, w, h) := b in
  emit (EvRectangle OnFrame (x, y) ((x + w)%Z, (y + h)%Z) c 2%Z).

Definition draw_detections (faces eyes : list box) : M unit :=
  for_each faces (draw_box COLOR_FACE) ;;;
  for_each eyes (draw_box COLOR_EYE).

(** [enumerate]. *)
Fixpoint enumerate {A} (i : Z) (l : list A) : list (Z * A) :=
  match l with
  | [] => []
  | a :: l' => (i, a) :: enumerate (i + 1)%Z l'
  end.

Definition draw_statistics (face_count eye_count : Z)
    (fps processing_time : float) : M unit :=
  emit EvCopy ;;;
  emit (EvRectangle OnOverlay (10, 10)%Z (300, 150)%Z COLOR_BG (-1)%Z) ;;;
  emit (EvAddWeighted (7 # 10) (3 # 10) 0) ;;;
  let font_scale := 6 # 10 in
  let thickness := 2%Z in
  let line_height := 25%Z in
  let stats :=
    [TxtFaces face_count; TxtEyes eye_count; TxtFps fps;
     TxtProcessing processing_time; TxtBlank; TxtHintQuit;
     TxtHintScreenshot] in
  for_each (enumerate 0%Z stats)
    (fun '(i, stat) =>
       let y_pos := (30 + i * line_height)%Z in
       emit (EvPutText stat (20%Z, y_pos) font_scale COLOR_TEXT thickness)).

(** The variables of [main] that outlive an iteration. *)
Record state := mkState {
  frame_count : Z;
  fps_calculator : Fps.FPSCalculator;
  start_time : float
}.

(** What the outside world answers during one iteration: the result of
    [cap.read()] ([None] when [ret] is false), the clock readings of the
    [time.time()] calls in program order, and the result of
    [cv2.waitKey(1)]. *)
Record tick := mkTick {
  cap_read : option (ndarray bgr);
  t_process_start : float;
  t_process_end : float;
  t_update : float;
  waitKey : Z;
  t_summary : float
}.

(** How an iteration ends: back to the head of the loop ([continue] or the
    end of the body), or out of it ([break]). *)
Inductive control := Next | Break.

Definition ord_q : Z := 113%Z.
Definition ord_s : Z := 115%Z.

(** Lines 416-436 of the body: the key read by [cv2.waitKey(1) & 0xFF] is
    handled, then the frame is counted and every 100th counted frame a
    performance line is printed.  [calc] is the calculator after the
    [update] call of the iteration. *)
Definition handle_key (st : state) (tk : tick) (calc : Fps.FPSCalculator)
    (fps processing_time : float) (face_count eye_count : Z)
  : M (control * state) :=
  let key := Z.land (waitKey tk) 255 in
  if (key =? ord_q)%Z then
    emit (EvPrint MsgQuit) ;;;
    ret (Break, mkState (frame_count st) calc (start_time st))
  else
    (if (key =? ord_s)%Z
     then emit EvImwrite ;;; emit (EvPrint MsgScreenshotSaved)
     else ret tt) ;;;
    let frame_count' := (frame_count st + 1)%Z in
    (if (frame_count' mod 100 =? 0)%Z then
       let elapsed := (t_summary tk - start_time st)%float in
       let avg_fps :=
         if (0 <? elapsed)%float
         then (float_of_int frame_count' / elapsed)%float else 0%float in
       emit (EvPrint (MsgPerformance avg_fps fps processing_time
                        face_count eye_count))
     else ret tt) ;;;
    ret (Next, mkState frame_count' calc (start_time st)).

(** Lines 387-413 of the body, for a captured frame: detection, the
    frame-rate update, the overlays and the display. *)
Definition process (face_cascade eye_cascade : cascade) (st : state)
    (tk : tick) (frame : ndarray bgr) : M (control * state) :=
  let process_start := t_process_start tk in
  fe <- detect_faces_and_eyes frame face_cascade eye_cascade ;;
  let faces := fst fe in
  let eyes := snd fe in
  let processing_time :=
    ((t_process_end tk - process_start) * 1000)%float in
  let upd := Fps.update (fps_calculator st) (t_update tk) in
  let fps := snd upd in
  let face_count := Z.of_nat (length faces) in
  let eye_count := Z.of_nat (length eyes) in
  let display_face_count := Z.min face_count 5 in
  draw_detections faces eyes ;;;
  draw_statistics display_face_count eye_count fps processing_time ;;;
  emit EvImshow ;;;
  emit (EvWaitKey 1%Z) ;;;
  handle_key st tk (fst upd) fps processing_time face_count eye_count.

(** The body of the [while True] loop, lines 380-436. *)
Definition body (face_cascade eye_cascade : cascade) (st : state)
    (tk : tick) : M (control * state) :=
  match cap_read tk with
  | None =>
      emit (EvPrint MsgCaptureFailed) ;;;
      ret (Next, st)
  | Some frame => process face_cascade eye_cascade st tk frame
  end.

(** The loop, for the answers the world gives: it stops at the first
    [break]; when the answers run out the loop is still running. *)
Fixpoint run (face_cascade eye_cascade : cascade) (st : state)
    (ticks : list tick) : M (control * state) :=
  match ticks with
  | [] => ret (Next, st)
  | tk :: rest =>
      r <- body face_cascade eye_cascade st tk ;;
      match fst r with
      | Break => ret r
      | Next => run face_cascade eye_cascade (snd r) rest
      end
  end.

(** The [finally] block, lines 446-465; [now] is the clock reading taken
    for the session statistics. *)
Definition finally (st : state) (now : float) : M unit :=
  emit (EvPrint MsgCleanup) ;;;
  emit EvRelease ;;;
  emit EvDestroyAllWindows ;;;
  (if (0 <? frame_count st)%Z then
     let total_time := (now - start_time st)%float in
     let avg_fps :=
       if (0 <? total_time)%float
       then (float_of_int (frame_count st) / total_time)%float
       else 0%float in
     emit (EvPrint (MsgSessionStats (frame_count st) total_time avg_fps))
   else ret tt) ;;;
  emit (EvPrint MsgClosed).

(** The state [main] enters the loop with, lines 364-376; [FPS_QUEUE_SIZE]
    is not negative, so the calculator is always built. *)
Definition initial_state (t_init t_start : float) : state :=
  mkState 0
    (match Fps.init FPS_QUEUE_SIZE t_init with
     | Some calc => calc
     | None => Fps.mkFPS (Fps.mkDeque [] 0) t_init
     end)
    t_start.

(** A session from the first iteration to the end of the [finally]
    block.  When the answers run out before a [break], the block runs as
    it does after an interruption. *)
Definition session (face_cascade eye_cascade : cascade)
    (t_init t_start : float) (ticks : list tick) (t_end : float)
  : M (control * state) :=
  r <- run face_cascade eye_cascade (initial_state t_init t_start) ticks ;;
  finally (snd r) t_end ;;;
  ret r.

(** The call [draw_box] makes. *)
Definition rect_event (c : color) (b : box) : event :=
  let '(x, y, w, h) := b in
  EvRectangle OnFrame (x, y) ((x + w)%Z, (y + h)%Z) c 2%Z.

(** The two corners of the rectangle drawn for a box. *)
Definition corners (b : box) : (Z * Z) * (Z * Z) :=
  let '(x, y, w, h) := b in ((x, y), ((x + w)%Z, (y + h)%Z)).

(** The messages the loop itself prints. *)
Definition loop_message (m : message) : Prop :=
  match m with
  | MsgCaptureFailed | MsgQuit | MsgScreenshotSaved
  | MsgPerformance _ _ _ _ _ => True
  | _ => False
  end.

(** The warning printed for a capture failure. *)
Definition warning : event := EvPrint MsgCaptureFailed.

(** The events of the key handling: a screenshot and console lines. *)
Definition quiet (t : list event) : Prop :=
  Forall (fun e => match e with
                   | EvImwrite => True
                   | EvPrint m => loop_message m
                   | _ => False
                   end) t.

(** The arguments [process] passes to [handle_key]. *)
Definition key_step (fc ec : cascade) (st : state) (tk : tick)
    (frame : ndarray bgr) : M (control * state) :=
  let fe := value (detect_faces_and_eyes frame fc ec) in
  let upd := Fps.update (fps_calculator st) (t_update tk) in
  handle_key st tk (fst upd) (snd upd)
    ((t_process_end tk - t_process_start tk) * 1000)%float
    (Z.of_nat (length (fst fe))) (Z.of_nat (length (snd fe))).

(** A tick on which no frame is returned. *)
Definition failed (tk : tick) : Prop := cap_read tk = None.

(** A tick on which the quit key is read. *)
Definition quits (tk : tick) : Prop :=
  Z.land (waitKey tk) 255 = ord_q.

(** A tick that delivers a frame. *)
Definition has_frame (tk : tick) : bool :=
  match cap_read tk with Some _ => true | None => false end.

(** The key test of line 418 on the answer of a tick. *)
Definition quit_key (tk : tick) : bool :=
  (Z.land (waitKey tk) 255 =? ord_q)%Z.

(** The key test of line 422 on the answer of a tick. *)
Definition screenshot_key (tk : tick) : bool :=
  (Z.land (waitKey tk) 255 =? ord_s)%Z.

(** The clock readings the frame-rate calculator is updated with during
    a run: one for every tick that delivers a frame, up to and including
    the tick on which the quit key is read. *)
Fixpoint update_times (ticks : list tick) : list float :=
  match ticks with
  | [] => []
  | tk :: rest =>
      if has_frame tk
      then t_update tk :: (if quit_key tk then [] else update_times rest)
      else update_times rest
  end.

(** The screenshots written in a trace. *)
Definition screenshots (t : list event) : nat :=
  length (filter (fun e => match e with EvImwrite => true | _ => false end)
            t).

(** The performance lines among console messages. *)
Definition performance_lines (ms : list message) : nat :=
  length (filter (fun m => match m with
                           | MsgPerformance _ _ _ _ _ => true
                           | _ => false
                           end) ms).

(** The releases of the camera and the window teardowns in a trace. *)
Definition releases (t : list event) : nat :=
  length (filter (fun e => match e with EvRelease => true | _ => false end)
            t).

Definition teardowns (t : list event) : nat :=
  length (filter (fun e => match e with
                           | EvDestroyAllWindows => true
                           | _ => false
                           end) t).

(** The calls the loop makes: anything but the cleanup calls and the
    messages of the [finally] block. *)
Definition loop_event (e : event) : Prop :=
  match e with
  | EvRelease | EvDestroyAllWindows => False
  | EvPrint m => loop_message m
  | _ => True
  end.

(** The calls of an iteration before its key handling: OpenCV calls,
    drawing and display, but no file, console or cleanup call. *)
Definition drawing_or_cv (e : event) : Prop :=
  match e with
  | EvImwrite | EvPrint _ | EvRelease | EvDestroyAllWindows => False
  | _ => True
  end.

(** The calls [detect_faces_and_eyes] makes. *)
Definition cv_call (e : event) : Prop :=
  match e with
  | EvResize _ _ _ | EvCvtColor _ | EvDetect _ _ _ _ _ _ => True
  | _ => False
  end.

(** The text lines written to the frame, with their positions. *)
Definition text_lines (t : list event) : list (text * (Z * Z)) :=
  flat_map (fun e =>
    match e with
    | EvPutText txt org _ _ _ => [(txt, org)]
    | _ => []
    end) t.

(** The filled rectangles blended into the frame as panel background. *)
Definition panels (t : list event) : list ((Z * Z) * (Z * Z)) :=
  flat_map (fun e =>
    match e with
    | EvRectangle OnOverlay p1 p2 _ _ => [(p1, p2)]
    | _ => []
    end) t.

End WithCV.

End Loop.

(* ====================================================================== *)
(** ** A deterministic stand-in for OpenCV *)
(* ====================================================================== *)

Module Stub.

(** The face cascade ([true]) reports one face that fills the image; the
    eye cascade ([false]) reports two eyes in the upper half.  Nothing is
    reported in an image smaller than the minimum size. *)
Definition stub_detect (c : bool) (img : ndarray Z) (scaleFactor : Q)
    (minNeighbors : Z) (minSize : Z * Z) (flags : Z) : list box :=
  let w := Z.of_nat (ncols img) in
  let h := Z.of_nat (nrows img) in
  if ((fst minSize <=? w) && (snd minSize <=? h))%Z then
    if c then [(0, 0, w, h)%Z]
    else [(w / 8, h / 4, w / 4, h / 4)%Z;
          (5 * w / 8, h / 4, w / 4, h / 4)%Z]
  else [].

Definition stub_resize (a : ndarray bgr) (fx fy : Q) : ndarray bgr :=
  mkArray
    (Z.to_nat (cvRound (inject_Z (Z.of_nat (nrows a)) * fy)))
    (Z.to_nat (cvRound (inject_Z (Z.of_nat (ncols a)) * fx)))
    (fun i j =>
       item a (Z.to_nat (Qfloor (inject_Z (Z.of_nat i) / fy)))
              (Z.to_nat (Qfloor (inject_Z (Z.of_nat j) / fx)))).

Definition stub_gray (a : ndarray bgr) : ndarray Z :=
  mkArray (nrows a) (ncols a)
    (fun i j => let '(b, g, r) := item a i j in ((b + g + r) / 3)%Z).

#[export] Instance stub_cv : CV2 := {|
  cascade := bool;
  resize := stub_resize;
  cvtColor_BGR2GRAY := stub_gray;
  detectMultiScale := stub_detect
|}.

(** A second stand-in: the face cascade reports seven faces side by side
    and the eye cascade reports nothing. *)
Definition crowd_detect (c : bool) (img : ndarray Z) (scaleFactor : Q)
    (minNeighbors : Z) (minSize : Z * Z) (flags : Z) : list box :=
  if c
  then map (fun i => (40 * Z.of_nat i, 0, 30, 30)%Z) (seq 0 7)
  else [].

Definition crowd_cv : CV2 := {|
  cascade := bool;
  resize := stub_resize;
  cvtColor_BGR2GRAY := stub_gray;
  detectMultiScale := crowd_detect
|}.



(** A black frame of the given size. *)
Definition black (rows cols : nat) : ndarray bgr :=
  mkArray rows cols (fun _ _ => (0, 0, 0)%Z).

(** A tick with a frame, all clock readings at [t] and the given key. *)
Definition frame_tick (rows cols : nat) (t : float) (key : Z)
  : Loop.tick :=
  Loop.mkTick (Some (black rows cols)) t t t key t.

(** A tick without a frame. *)
Definition no_frame_tick : Loop.tick :=
  Loop.mkTick None 0%float 0%float 0%float (-1)%Z 0%float.





End Stub.

(* ====================================================================== *)
(** ** Start-up: cascade files, classifiers, camera and [main]
       (main.py, lines 50-175 and 337-376) *)
(* ====================================================================== *)

Module Startup.

Import Stdlib.Strings.String Stdlib.Strings.Ascii.
Import Detect Loop.

Local Open Scope string_scope.

(** *** Paths ([posixpath]) *)

Definition startswith_sep (s : string) : bool :=
  match s with
  | String c _ => Ascii.eqb c "/"%char
  | EmptyString => false
  end.

Fixpoint endswith_sep (s : string) : bool :=
  match s with
  | EmptyString => false
  | String c EmptyString => Ascii.eqb c "/"%char
  | String _ s' => endswith_sep s'
  end.

(** One step of the loop of [os.path.join]: a component that starts with
    the separator replaces the path; otherwise it is appended, after a
    separator unless the path is empty or already ends with one. *)
Definition join_step (path b : string) : string :=
  if startswith_sep b then b
  else if String.eqb path "" || endswith_sep path then path ++ b
  else path ++ "/" ++ b.

(** [os.path.join(a, *p)]. *)
Definition os_path_join (a : string) (p : list string) : string :=
  fold_left join_step p a.

(** The slice [l[::2]]. *)
Fixpoint every_other {A} (l : list A) : list A :=
  match l with
  | [] => []
  | a :: l' =>
      a :: match l' with
           | [] => []
           | _ :: l'' => every_other l''
           end
  end%list.

(** The slice [l[1::2]]. *)
Definition every_other_from_1 {A} (l : list A) : list A :=
  every_other (List.tl l).

(** The loops of lines 74-77 and 80-83: the first path that exists, [None]
    when there is none. *)
Fixpoint first_existing (exists_ : string -> bool) (paths : list string)
  : option string :=
  match paths with
  | [] => None
  | path :: rest =>
      if exists_ path then Some path else first_existing exists_ rest
  end%list.

Definition FACE_XML : string := "haarcascade_frontalface_default.xml".
Definition EYE_XML : string := "haarcascade_eye.xml".
Definition SYSTEM_DIR : string := "/usr/share/opencv4/haarcascades/".

(** Python's [not p] for a path or [None]: [None] and the empty string
    are false values. *)
Definition falsy (p : option string) : bool :=
  match p with
  | None => true
  | Some s => String.eqb s ""
  end.

(** *** What the outside world answers at start-up *)

Inductive cap_prop :=
| CAP_PROP_FRAME_WIDTH
| CAP_PROP_FRAME_HEIGHT
| CAP_PROP_FPS.

(** The file system ([os.path.exists]), the directory of the OpenCV
    package ([os.path.dirname(cv2.__file__)]), the construction of a
    classifier from a file and its [empty()] test, whether the camera
    with a given index opens, and what [cap.get] returns after the
    properties have been set.  The constructor of a classifier returns an
    object, which may be empty, or raises [cv2.error], as it does for a
    file that exists and cannot be parsed: [None] here. *)
Class World {cv : CV2} := {
  os_path_exists : string -> bool;
  cv2_dirname : string;
  CascadeClassifier : string -> option cascade;
  cascade_empty : cascade -> bool;
  isOpened : Z -> bool;
  cap_get : cap_prop -> Q
}.

(** The console output of the start-up code; a constructor stands for a
    run of consecutive [print] calls. *)
Inductive startup_message :=
| SMsgCascadesNotFound (data_dir : string)      (* lines 101-115 *)
| SMsgFaceLoadFailed (face_path : string)       (* line 126 *)
| SMsgEyeLoadFailed (eye_path : string)         (* line 130 *)
| SMsgFaceLoaded (face_path : string)           (* line 133 *)
| SMsgEyeLoaded (eye_path : string)             (* line 134 *)
| SMsgCameraInit                                (* line 148 *)
| SMsgCameraHelp                                (* lines 152-160 *)
| SMsgCameraReady (width height : Z) (fps : Q)  (* line 173 *)
| SMsgBanner                                    (* lines 341-344 *)
| SMsgStage1                                    (* line 347 *)
| SMsgInitFailed                                (* line 351 *)
| SMsgStage2                                    (* line 355 *)
| SMsgCameraFailed                              (* line 359 *)
| SMsgStage3                                    (* line 363 *)
| SMsgMonitorReady                              (* line 365 *)
| SMsgControls.                                 (* lines 367-373 *)

Inductive startup_event :=
| SPrint (m : startup_message)
| SCascadeClassifier (path : string)
| SVideoCapture (camera_index : Z)
| SCapSet (prop : cap_prop) (v : Z)
| SCapGet (prop : cap_prop).

(** How a call ends: it returns a value, or an exception that nothing
    in the function catches leaves it. *)
Inductive completion (A : Type) :=
| Normal (a : A)
| Raises.

Arguments Normal {A} a.
Arguments Raises {A}.

Section WithWorld.

Context {cv : CV2} {world : World}.

(** A call made by [main]: at start-up, or in the loop and its [finally]
    block. *)
Inductive main_event :=
| AtStartup (e : startup_event)
| InSession (e : event).

(** A start-up computation: its value and the calls it made, in order. *)
Definition S (A : Type) : Type := (A * list main_event)%type.

Definition sret {A} (a : A) : S A := (a, []%list).

Definition sbind {A B} (m : S A) (k : A -> S B) : S B :=
  let '(a, t1) := m in
  let '(b, t2) := k a in
  (b, (t1 ++ t2)%list).

Definition semit (e : startup_event) : S unit := (tt, [AtStartup e]%list).

(** A computation of the loop, run inside [main]. *)
Definition in_session {A} (m : M A) : S A :=
  (fst m, List.map InSession (snd m)).

Definition svalue {A} (m : S A) : A := fst m.
Definition strace {A} (m : S A) : list main_event := snd m.

Notation "x <- m ;; k" := (sbind m (fun x => k))
  (at level 61, m at next level, right associativity).
Notation "m ;;; k" := (sbind m (fun _ => k))
  (at level 61, right associativity).

(** The list [possible_paths] of lines 56-68. *)
Definition possible_paths : list string :=
  [ FACE_XML;
    EYE_XML;
    os_path_join cv2_dirname ["data"; FACE_XML];
    os_path_join cv2_dirname ["data"; EYE_XML];
    (SYSTEM_DIR ++ FACE_XML)%string;
    (SYSTEM_DIR ++ EYE_XML)%string ]%list.

(** [find_cascade_files], lines 50-85. *)
Definition find_cascade_files : option string * option string :=
  let face_cascade_path :=
    first_existing os_path_exists (every_other possible_paths) in
  let eye_cascade_path :=
    first_existing os_path_exists (every_other_from_1 possible_paths) in
  (face_cascade_path, eye_cascade_path).

(** [initialize_cascades], lines 91-136.  Both classifiers are built
    before either is tested, the face classifier first, and neither
    construction is inside a [try]. *)
Definition initialize_cascades
  : S (completion (option cascade * option cascade)) :=
  let '(face_path, eye_path) := find_cascade_files in
  if falsy face_path || falsy eye_path then
    semit (SPrint (SMsgCascadesNotFound
                     (os_path_join cv2_dirname ["data"]%list))) ;;;
    sret (Normal (None, None))
  else
    match face_path, eye_path with
    | Some face_path, Some eye_path =>
        semit (SCascadeClassifier face_path) ;;;
        match CascadeClassifier face_path with
        | None => sret Raises
        | Some face_cascade =>
            semit (SCascadeClassifier eye_path) ;;;
            match CascadeClassifier eye_path with
            | None => sret Raises
            | Some eye_cascade =>
                if cascade_empty face_cascade then
                  semit (SPrint (SMsgFaceLoadFailed face_path)) ;;;
                  sret (Normal (None, None))
                else if cascade_empty eye_cascade then
                  semit (SPrint (SMsgEyeLoadFailed eye_path)) ;;;
                  sret (Normal (None, None))
                else
                  semit (SPrint (SMsgFaceLoaded face_path)) ;;;
                  semit (SPrint (SMsgEyeLoaded eye_path)) ;;;
                  sret (Normal (Some face_cascade, Some eye_cascade))
            end
        end
    | _, _ => sret (Normal (None, None))
    end.

(** [initialize_camera], lines 138-175; the capture object is identified
    with the index it was opened with. *)
Definition initialize_camera (camera_index : Z) : S (option Z) :=
  semit (SPrint SMsgCameraInit) ;;;
  semit (SVideoCapture camera_index) ;;;
  if negb (isOpened camera_index) then
    semit (SPrint SMsgCameraHelp) ;;;
    sret None
  else
    semit (SCapSet CAP_PROP_FRAME_WIDTH 640) ;;;
    semit (SCapSet CAP_PROP_FRAME_HEIGHT 480) ;;;
    semit (SCapSet CAP_PROP_FPS 30) ;;;
    semit (SCapGet CAP_PROP_FRAME_WIDTH) ;;;
    let width := py_int (cap_get CAP_PROP_FRAME_WIDTH) in
    semit (SCapGet CAP_PROP_FRAME_HEIGHT) ;;;
    let height := py_int (cap_get CAP_PROP_FRAME_HEIGHT) in
    semit (SCapGet CAP_PROP_FPS) ;;;
    let fps := cap_get CAP_PROP_FPS in
    semit (SPrint (SMsgCameraReady width height fps)) ;;;
    sret (Some camera_index).

(** How [main] ends: [sys.exit(code)], a normal return, or an exception
    raised at start-up, where no [try] surrounds the calls. *)
Inductive outcome :=
| SysExit (code : Z)
| Returned
| Uncaught.

(** [main], lines 337-465.  [t_init] and [t_start] are the clock readings
    of lines 364 and 376, [ticks] the answers of the world to the
    iterations of the loop and [t_end] the clock reading of the [finally]
    block. *)
Definition main (t_init t_start : float) (ticks : list tick)
    (t_end : float) : S outcome :=
  semit (SPrint SMsgBanner) ;;;
  semit (SPrint SMsgStage1) ;;;
  cascades <- initialize_cascades ;;
  match cascades with
  | Raises => sret Uncaught
  | Normal (Some face_cascade, Some eye_cascade) =>
      semit (SPrint SMsgStage2) ;;;
      cap <- initialize_camera 0 ;;
      match cap with
      | None =>
          semit (SPrint SMsgCameraFailed) ;;;
          sret (SysExit 1)
      | Some _ =>
          semit (SPrint SMsgStage3) ;;;
          semit (SPrint SMsgMonitorReady) ;;;
          semit (SPrint SMsgControls) ;;;
          in_session
            (session face_cascade eye_cascade t_init t_start ticks t_end) ;;;
          sret Returned
      end
  | Normal _ =>
      semit (SPrint SMsgInitFailed) ;;;
      sret (SysExit 1)
  end.

(** The start-up calls and the session calls of a trace of [main]. *)
Definition startup_events (t : list main_event) : list startup_event :=
  flat_map (fun e => match e with AtStartup e' => [e'] | _ => [] end)%list t.

Definition session_events (t : list main_event) : list event :=
  flat_map (fun e => match e with InSession e' => [e'] | _ => [] end)%list t.

(** The cameras opened and the classifier files loaded in a start-up
    trace. *)
Definition cameras_opened (t : list startup_event) : list Z :=
  flat_map (fun e => match e with
                     | SVideoCapture i => [i]
                     | _ => []
                     end)%list t.

Definition files_loaded (t : list startup_event) : list string :=
  flat_map (fun e => match e with
                     | SCascadeClassifier p => [p]
                     | _ => []
                     end)%list t.

(** The properties requested from the camera, in order. *)
Definition properties_set (t : list startup_event) : list (cap_prop * Z) :=
  flat_map (fun e => match e with
                     | SCapSet p v => [(p, v)]
                     | _ => []
                     end)%list t.

(** The candidates for the face and for the eye cascade file, by
    priority. *)
Definition face_candidates : list string :=
  [ FACE_XML;
    os_path_join cv2_dirname ["data"; FACE_XML];
    (SYSTEM_DIR ++ FACE_XML)%string ]%list.

Definition eye_candidates : list string :=
  [ EYE_XML;
    os_path_join cv2_dirname ["data"; EYE_XML];
    (SYSTEM_DIR ++ EYE_XML)%string ]%list.

(** [r] is the choice among [candidates]: the first candidate that
    exists, or [None] when none does. *)
Definition chosen (candidates : list string) (r : option string) : Prop :=
  match r with
  | Some p =>
      exists before after : list string,
        candidates = (before ++ p :: after)%list /\
        os_path_exists p = true /\
        Forall (fun q => os_path_exists q = false) before
  | None => Forall (fun q => os_path_exists q = false) candidates
  end.

(** Both cascade files are found, both constructors return and both
    classifiers built are usable. *)
Definition cascades_available : Prop :=
  exists (face_path eye_path : string) (face_cascade eye_cascade : cascade),
    find_cascade_files = (Some face_path, Some eye_path) /\
    CascadeClassifier face_path = Some face_cascade /\
    CascadeClassifier eye_path = Some eye_cascade /\
    cascade_empty face_cascade = false /\
    cascade_empty eye_cascade = false.

(** Both cascade files are found and the constructor of the face
    classifier raises, or it returns and that of the eye classifier
    raises. *)
Definition constructor_raises : Prop :=
  exists face_path eye_path : string,
    find_cascade_files = (Some face_path, Some eye_path) /\
    (CascadeClassifier face_path = None \/
     (CascadeClassifier face_path <> None /\
      CascadeClassifier eye_path = None)).

End WithWorld.

End Startup.

(** A world for the stand-in: the files in [files] exist, the constructor
    raises for the files in [broken], a classifier built from an eye
    cascade file is the eye cascade, none is empty, and the camera opens
    when [camera] holds and reports 640 by 480 pixels at 30 frames per
    second. *)
Module StubWorld.

Import Stdlib.Strings.String.
Import Startup.

Local Open Scope string_scope.

Definition in_list (p : string) (l : list string) : bool :=
  existsb (String.eqb p) l.

Definition eye_files : list string :=
  [ "haarcascade_eye.xml";
    "/opt/cv2/data/haarcascade_eye.xml";
    "/usr/share/opencv4/haarcascades/haarcascade_eye.xml" ]%list.

Definition broken_world (files broken : list string) (camera : bool)
  : @World Stub.stub_cv := {|
  os_path_exists := fun p => in_list p files;
  cv2_dirname := "/opt/cv2";
  CascadeClassifier := fun p =>
    if in_list p broken then None
    else Some (negb (in_list p eye_files) : @cascade Stub.stub_cv);
  cascade_empty := fun _ : @cascade Stub.stub_cv => false;
  isOpened := fun _ => camera;
  cap_get := fun prop =>
    match prop with
    | CAP_PROP_FRAME_WIDTH => 640
    | CAP_PROP_FRAME_HEIGHT => 480
    | CAP_PROP_FPS => 30
    end
|}.

(** The world in which every constructor returns. *)
Definition stub_world (files : list string) (camera : bool)
  : @World Stub.stub_cv :=
  broken_world files []%list camera.

(** Only the files of the system directory are installed. *)
Definition system_files : list string :=
  [ "/usr/share/opencv4/haarcascades/haarcascade_frontalface_default.xml";
    "/usr/share/opencv4/haarcascades/haarcascade_eye.xml" ]%list.

End StubWorld.

(* ====================================================================== *)
(** * Properties *)
(* ====================================================================== *)

(** ** Numbers *)

Lemma Prim2SF_zero : Prim2SF 0%float = S754_zero false.
Proof. reflexivity. Qed.

Lemma Prim2SF_one :
  Prim2SF 1%float = S754_finite false 4503599627370496 (-52).
Proof. reflexivity. Qed.

(** A float that is zero or negative is not positive. *)
Lemma float_leb_0_not_ltb (d : float) :
  (d <=? 0)%float = true -> (0 <? d)%float = false.
Proof.
  rewrite leb_spec, ltb_spec, Prim2SF_zero.
  destruct (Prim2SF d) as [[]|[]| |[] m e]; cbn; congruence.
Qed.

(** Rounding a mantissa that is not negative gives a float that is not
    negative, and no NaN. *)
Lemma shr_1_nonneg (mrs : shr_record) :
  (0 <= shr_m mrs)%Z -> (0 <= shr_m (shr_1 mrs))%Z.
Proof.
  destruct mrs as [m r s]. destruct m as [|[p|p|]|p]; cbn; lia.
Qed.

Lemma iter_shr_1_nonneg (p : positive) : forall mrs : shr_record,
  (0 <= shr_m mrs)%Z -> (0 <= shr_m (iter_pos shr_1 p mrs))%Z.
Proof.
  induction p as [p IH|p IH|]; intros mrs H; cbn [iter_pos].
  - apply IH, IH, shr_1_nonneg, H.
  - apply IH, IH, H.
  - apply shr_1_nonneg, H.
Qed.

Lemma shr_fexp_nonneg (m e : Z) (l : location) :
  (0 <= m)%Z -> (0 <= shr_m (fst (shr_fexp prec emax m e l)))%Z.
Proof.
  intro H. unfold shr_fexp, shr.
  assert (H0 : (0 <= shr_m (shr_record_of_loc m l))%Z)
    by (destruct l as [|[]]; exact H).
  destruct (fexp prec emax (Zdigits2 m + e) - e)%Z; cbn [fst];
    [exact H0| |exact H0].
  apply iter_shr_1_nonneg, H0.
Qed.

Lemma round_nearest_even_nonneg (m : Z) (l : location) :
  (0 <= m)%Z -> (0 <= round_nearest_even m l)%Z.
Proof.
  intro H. destruct l as [|[]]; cbn; try lia. destruct (Z.even m); lia.
Qed.

Lemma binary_round_aux_nonneg (mx ex : Z) (lx : location) :
  (0 <= mx)%Z ->
  SFleb (S754_zero false) (binary_round_aux prec emax false mx ex lx) = true.
Proof.
  intro H. unfold binary_round_aux.
  pose proof (shr_fexp_nonneg mx ex lx H) as H1.
  destruct (shr_fexp prec emax mx ex lx) as [mrs' e'].
  cbn [fst] in H1.
  pose proof (shr_fexp_nonneg _ e' loc_Exact
                (round_nearest_even_nonneg _ (loc_of_shr_record mrs') H1))
    as H2.
  destruct (shr_fexp prec emax _ e' loc_Exact) as [mrs'' e''].
  cbn [fst] in H2.
  destruct (shr_m mrs'') as [|m|m]; [reflexivity| |lia].
  destruct (e'' <=? emax - prec)%Z; reflexivity.
Qed.

Lemma SFdiv_core_nonneg (mx my : positive) (ex ey : Z) :
  (0 <= fst (fst (SFdiv_core_binary prec emax (Zpos mx) ex (Zpos my) ey)))%Z.
Proof.
  unfold SFdiv_core_binary.
  set (s := (_ - _ - _)%Z).
  set (m' := match s with Zpos _ => _ | Z0 => _ | Zneg _ => _ end).
  assert (Hm : (0 <= m')%Z).
  { unfold m'. destruct s; [lia| |lia].
    apply Z.shiftl_nonneg. lia. }
  pose proof (Z.div_pos m' (Zpos my) Hm ltac:(lia)) as Hq.
  unfold Z.div in Hq. destruct (Z.div_eucl m' (Zpos my)) as [q r].
  exact Hq.
Qed.

(** [1 / a] for a positive float [a] is zero, positive or [+inf]. *)
Lemma float_inverse_nonneg (a : float) :
  (0 <? a)%float = true -> (0 <=? 1 / a)%float = true.
Proof.
  rewrite ltb_spec, leb_spec, div_spec, Prim2SF_zero, Prim2SF_one.
  destruct (Prim2SF a) as [s|s| |s m e]; cbn; try discriminate.
  - destruct s; [discriminate|reflexivity].
  - destruct s; [discriminate|]. intros _.
    unfold SF64div, SFdiv.
    pose proof (SFdiv_core_nonneg 4503599627370496 m (-52) e) as H.
    destruct (SFdiv_core_binary _ _ _ _ _ _) as [[mz ez] lz].
    cbn [fst] in H. cbn [xorb]. apply binary_round_aux_nonneg, H.
Qed.



Lemma last_default_irrelevant {A} (l : list A) :
  forall a d1 d2 : A, last (a :: l) d1 = last (a :: l) d2.
Proof.
  induction l as [|b l IH]; intros a d1 d2; [reflexivity|].
  change (last (a :: b :: l) d1) with (last (b :: l) d1).
  change (last (a :: b :: l) d2) with (last (b :: l) d2). apply IH.
Qed.

(** ** FPSCalculator *)

Module FpsFacts.

Import Fps.

Lemma maxlen_append (d : deque) (x : float) :
  maxlen (append d x) = maxlen d.
Proof. reflexivity. Qed.

Lemma items_append (d : deque) (x : float) :
  (length (items d) <= maxlen d)%nat ->
  items (append d x) =
  skipn (length (items d ++ [x]) - maxlen d) (items d ++ [x]).
Proof.
  intro Hwf. unfold append. cbn [items].
  rewrite length_app. cbn [length].
  destruct (Nat.ltb_spec (maxlen d) (length (items d) + 1)) as [Hlt|Hge].
  - replace (length (items d) + 1 - maxlen d)%nat with 1%nat by lia.
    destruct (items d ++ [x]); reflexivity.
  - replace (length (items d) + 1 - maxlen d)%nat with 0%nat by lia.
    reflexivity.
Qed.

Lemma length_items_append (d : deque) (x : float) :
  (length (items d) <= maxlen d)%nat ->
  (length (items (append d x)) <= maxlen d)%nat.
Proof.
  intro Hwf. rewrite items_append by exact Hwf.
  rewrite length_skipn, length_app. cbn [length]. lia.
Qed.

(** Appending a run of samples keeps the newest [maxlen] of them. *)
Lemma items_fold_append (xs : list float) : forall d : deque,
  (length (items d) <= maxlen d)%nat ->
  items (fold_left append xs d) =
  skipn (length (items d ++ xs) - maxlen d) (items d ++ xs)
  /\ maxlen (fold_left append xs d) = maxlen d.
Proof.
  induction xs as [|x xs IH]; intros d Hwf.
  - cbn [fold_left]. rewrite app_nil_r.
    replace (length (items d) - maxlen d)%nat with 0%nat by lia.
    split; reflexivity.
  - cbn [fold_left].
    pose proof (length_items_append d x Hwf) as Hwf'.
    rewrite <- (maxlen_append d x) in Hwf' at 1.
    destruct (IH (append d x) Hwf') as [Hi Hm].
    rewrite Hi, Hm, maxlen_append. split; [|reflexivity].
    rewrite items_append by exact Hwf.
    set (n := (length (items d ++ [x]) - maxlen d)%nat).
    assert (Hn : (n <= length (items d ++ [x]))%nat) by (unfold n; lia).
    replace (skipn n (items d ++ [x]) ++ xs)
      with (skipn n ((items d ++ [x]) ++ xs)).
    2:{ rewrite skipn_app.
        replace (n - length (items d ++ [x]))%nat with 0%nat by lia.
        reflexivity. }
    rewrite skipn_skipn. rewrite <- app_assoc. cbn [app].
    f_equal. rewrite !length_app, length_skipn, !length_app.
    unfold n. rewrite !length_app. cbn [length]. lia.
Qed.

Lemma wf_update (self : FPSCalculator) (t : float) :
  wf self -> wf (fst (update self t))
  /\ maxlen (frame_times (fst (update self t))) = maxlen (frame_times self).
Proof.
  unfold wf, update, pushed. cbn [fst frame_times]. intro Hwf.
  destruct (0 <? t - last_time self)%float.
  - rewrite maxlen_append. split; [|reflexivity].
    apply length_items_append, Hwf.
  - split; [exact Hwf|reflexivity].
Qed.

Lemma wf_updates (ts : list float) : forall self : FPSCalculator,
  wf self -> wf (fst (updates self ts))
  /\ maxlen (frame_times (fst (updates self ts))) = maxlen (frame_times self).
Proof.
  induction ts as [|t ts IH]; intros self Hwf.
  - split; [exact Hwf|reflexivity].
  - cbn [updates].
    destruct (update self t) as [self1 r] eqn:E1.
    destruct (updates self1 ts) as [self2 rs] eqn:E2.
    cbn [fst].
    destruct (wf_update self t Hwf) as [H1 H1m]. rewrite E1 in H1, H1m.
    cbn [fst] in H1, H1m.
    destruct (IH self1 H1) as [H2 H2m]. rewrite E2 in H2, H2m.
    cbn [fst] in H2, H2m. split; [exact H2|congruence].
Qed.

Lemma wf_init (c : Z) (now : float) (calc : FPSCalculator) :
  init c now = Some calc ->
  wf calc /\ maxlen (frame_times calc) = Z.to_nat c
  /\ items (frame_times calc) = [] /\ (0 <= c)%Z.
Proof.
  unfold init, deque_new. destruct (Z.ltb_spec c 0); [discriminate|].
  intro E. injection E as <-. unfold wf. cbn. repeat split; lia.
Qed.

Lemma fst_updates_cons (self : FPSCalculator) (t : float)
    (ts : list float) :
  fst (updates self (t :: ts)) = fst (updates (fst (update self t)) ts).
Proof.
  cbn [updates]. destruct (update self t) as [self1 r].
  cbn [fst]. destruct (updates self1 ts). reflexivity.
Qed.

Lemma snd_updates_cons (self : FPSCalculator) (t : float)
    (ts : list float) :
  snd (updates self (t :: ts)) =
  snd (update self t) :: snd (updates (fst (update self t)) ts).
Proof.
  cbn [updates]. destruct (update self t) as [self1 r].
  cbn [fst snd]. destruct (updates self1 ts). reflexivity.
Qed.


(** The window a run of calls leaves: the positive deltas measured are
    appended in order; the calculator remembers the last reading. *)
Lemma frame_times_updates (ts : list float) : forall self : FPSCalculator,
  frame_times (fst (updates self ts)) =
  fold_left append (kept (deltas (last_time self) ts)) (frame_times self)
  /\ last_time (fst (updates self ts)) = last ts (last_time self).
Proof.
  induction ts as [|t ts IH]; intro self; [split; reflexivity|].
  rewrite fst_updates_cons.
  destruct (IH (fst (update self t))) as [Hft Hlt].
  rewrite Hft, Hlt. unfold update, pushed, kept.
  cbn [fst frame_times last_time deltas filter]. split.
  - destruct (0 <? t - last_time self)%float; reflexivity.
  - destruct ts as [|q ts']; [reflexivity|].
    change (last (t :: q :: ts') (last_time self))
      with (last (q :: ts') (last_time self)).
    apply last_default_irrelevant.
Qed.





(** C5: a call of [update] that measures a zero or negative delta since
    the previous call leaves the window as the previous call left it and
    returns the value the previous call returned. *)
Theorem nonpositive_delta_ignored :
  forall (self : FPSCalculator) (t1 t2 : float),
    (t2 - t1 <=? 0)%float = true ->
    let prev := update self t1 in
    let cur := update (fst prev) t2 in
    frame_times (fst cur) = frame_times (fst prev) /\
    snd cur = snd prev.
Proof.
  intros self t1 t2 Hle prev cur. unfold cur, prev, update.
  cbn [fst snd frame_times].
  assert (E : (0 <? t2 - t1)%float = false)
    by (apply float_leb_0_not_ltb; exact Hle).
  assert (Hsame : pushed (mkFPS (pushed self t1) t1) t2 = pushed self t1).
  { unfold pushed at 1. cbn [last_time frame_times]. rewrite E.
    reflexivity. }
  rewrite Hsame. split; reflexivity.
Qed.


End FpsFacts.

(** ** Traces *)

Section TraceFacts.

Context {cv : CV2}.

Lemma value_bind {A B} (m : M A) (k : A -> M B) :
  value (bind m k) = value (k (value m)).
Proof.
  unfold value, bind. destruct m as [a t1]. cbn [fst].
  destruct (k a). reflexivity.
Qed.

Lemma trace_bind {A B} (m : M A) (k : A -> M B) :
  trace (bind m k) = trace m ++ trace (k (value m)).
Proof.
  unfold value, trace, bind. destruct m as [a t1]. cbn [fst snd].
  destruct (k a). reflexivity.
Qed.

Lemma detect_calls_app (t1 t2 : list event) :
  detect_calls (t1 ++ t2) = detect_calls t1 ++ detect_calls t2.
Proof. apply flat_map_app. Qed.

Lemma rectangles_app (c : color) (t1 t2 : list event) :
  rectangles c (t1 ++ t2) = rectangles c t1 ++ rectangles c t2.
Proof. apply flat_map_app. Qed.

Lemma shown_face_counts_app (t1 t2 : list event) :
  shown_face_counts (t1 ++ t2) = shown_face_counts t1 ++ shown_face_counts t2.
Proof. apply flat_map_app. Qed.

Lemma printed_app (t1 t2 : list event) :
  printed (t1 ++ t2) = printed t1 ++ printed t2.
Proof. apply flat_map_app. Qed.

Lemma shown_frames_app (t1 t2 : list event) :
  shown_frames (t1 ++ t2) = (shown_frames t1 + shown_frames t2)%nat.
Proof. unfold shown_frames. rewrite filter_app. apply length_app. Qed.

End TraceFacts.

Create Rewrite HintDb tr_app.
#[local] Hint Rewrite @detect_calls_app @shown_face_counts_app
  @printed_app @shown_frames_app @rectangles_app : tr_app.

(** ** Slices and rounding *)


(** A slice that stays on the axis has exactly the requested length. *)
Lemma slice_axis_exact (n : nat) (a w : Z) :
  (0 <= a)%Z -> (0 <= w)%Z -> (a + w <= Z.of_nat n)%Z ->
  slice_axis n a (a + w) = (Z.to_nat a, Z.to_nat w).
Proof.
  intros Ha Hw Hn. unfold slice_axis, clip.
  destruct (Z.ltb_spec a 0); destruct (Z.ltb_spec (a + w) 0); try lia.
  f_equal; lia.
Qed.

Lemma py_int_div_half (x : Z) :
  py_int (inject_Z x / DETECTION_SCALE) = (2 * x)%Z.
Proof.
  unfold py_int, DETECTION_SCALE, Qdiv, Qmult, Qinv, inject_Z.
  cbn [Qnum Qden Pos.mul]. rewrite Z.quot_1_r. lia.
Qed.

(** Halving with [cvRound]: the doubled result is the number itself when
    it is even and at most one more when it is odd. *)
Lemma cvRound_half (n : Z) :
  (0 <= n)%Z ->
  (0 <= cvRound (inject_Z n * DETECTION_SCALE) /\
   2 * cvRound (inject_Z n * DETECTION_SCALE) <= n + 1 /\
   (Z.even n = true -> 2 * cvRound (inject_Z n * DETECTION_SCALE) = n) /\
   (n mod 4 <> 3 -> 2 * cvRound (inject_Z n * DETECTION_SCALE) <= n))%Z.
Proof.
  intro Hn. unfold cvRound, DETECTION_SCALE, Qfloor, Qcompare, Qminus,
    Qplus, Qopp, Qmult, inject_Z.
  cbn [Qnum Qden Pos.mul]. rewrite !Z.mul_1_r.
  change (Z.pos (1 * 2)) with 2%Z. change (Z.pos (2 * 1)) with 2%Z.
  pose proof (Z.div_mod n 2 ltac:(lia)) as Hdm.
  pose proof (Z.mod_pos_bound n 2 ltac:(lia)) as Hmb.
  assert (Hev : Z.even n = true -> (n mod 2 = 0)%Z).
  { intro E. apply Z.even_spec in E. destruct E as [k ->].
    rewrite Z.mul_comm. apply Z.mod_mul. lia. }
  pose proof (Z.div_mod n 4 ltac:(lia)) as Hdm4.
  pose proof (Z.mod_pos_bound n 4 ltac:(lia)) as Hmb4.
  assert (Hodd : Z.even (n / 2) = false -> exists j, (n / 2 = 2 * j + 1)%Z).
  { intro E. apply Z.odd_spec. rewrite <- Z.negb_even, E. reflexivity. }
  destruct (Z.compare_spec ((n + - (n / 2) * 2) * 2) (1 * 2)) as [E|E|E];
    [destruct (Z.even (n / 2)) eqn:Ek;
       [|destruct (Hodd eq_refl) as [j Hj]]| |];
    (split; [lia|split; [lia|split;
       [intro Hv; specialize (Hev Hv); lia|intro H4; lia]]]).
Qed.

(** ** detect_faces_and_eyes *)

Module DetectFacts.

Import Detect.

Section WithCV.

Context {cv : CV2}.

Lemma append_eyes_eq (fx fy : Z) (eyes_in_face : list box) :
  forall eyes : list box,
    append_eyes fx fy eyes eyes_in_face =
    eyes ++ map (fun e : box => let '(ex, ey, ew, eh) := e in
                                ((fx + ex)%Z, (fy + ey)%Z, ew, eh))
              eyes_in_face.
Proof.
  unfold append_eyes.
  induction eyes_in_face as [|[[[ex ey] ew] eh] l IH]; intro eyes.
  - cbn. symmetry. apply app_nil_r.
  - cbn [fold_left map]. rewrite IH, <- app_assoc. reflexivity.
Qed.

Lemma eye_loop_value (ec : cascade) (g : ndarray Z) (faces : list box) :
  forall eyes : list box,
    value (eye_loop ec g faces eyes) =
    eyes ++ flat_map (eyes_of_face ec g) faces.
Proof.
  induction faces as [|[[[fx fy] fw] fh] rest IH]; intro eyes.
  - cbn. symmetry. apply app_nil_r.
  - cbn [eye_loop flat_map]. rewrite value_bind, IH.
    rewrite append_eyes_eq, <- app_assoc. reflexivity.
Qed.

Lemma eye_loop_trace (ec : cascade) (g : ndarray Z) (faces : list box) :
  forall eyes : list box,
    trace (eye_loop ec g faces eyes) = map (eye_event ec g) faces.
Proof.
  induction faces as [|[[[fx fy] fw] fh] rest IH]; intro eyes.
  - reflexivity.
  - cbn [eye_loop map]. rewrite trace_bind, IH. reflexivity.
Qed.

Lemma detect_value (frame : ndarray bgr) (fc ec : cascade) :
  value (detect_faces_and_eyes frame fc ec) =
  (faces_of fc frame,
   flat_map (eyes_of_face ec (cvtColor_BGR2GRAY frame)) (faces_of fc frame)).
Proof.
  unfold detect_faces_and_eyes.
  rewrite !value_bind. rewrite eye_loop_value. reflexivity.
Qed.

Lemma detect_trace (frame : ndarray bgr) (fc ec : cascade) :
  trace (detect_faces_and_eyes frame fc ec) =
  [EvResize frame DETECTION_SCALE DETECTION_SCALE;
   EvCvtColor (resize frame DETECTION_SCALE DETECTION_SCALE);
   EvDetect fc
     (cvtColor_BGR2GRAY (resize frame DETECTION_SCALE DETECTION_SCALE))
     FACE_SCALE_FACTOR FACE_MIN_NEIGHBORS FACE_MIN_SIZE
     CASCADE_SCALE_IMAGE;
   EvCvtColor frame]
  ++ map (eye_event ec (cvtColor_BGR2GRAY frame)) (faces_of fc frame).
Proof.
  unfold detect_faces_and_eyes.
  rewrite !trace_bind, ?value_bind. rewrite eye_loop_trace.
  cbn [trace snd cv_resize cv_cvtColor cv_detect emit ret bind app value
       fst].
  rewrite app_nil_r. reflexivity.
Qed.

Lemma detect_calls_eye_events (ec : cascade) (g : ndarray Z)
    (faces : list box) :
  detect_calls (map (eye_event ec g) faces) = map (eye_call ec g) faces.
Proof.
  induction faces as [|f rest IH]; [reflexivity|].
  cbn [map]. change (detect_calls (eye_event ec g f :: ?l))
    with (eye_call ec g f :: detect_calls l).
  cbn [detect_calls flat_map eye_event app]. f_equal. exact IH.
Qed.

Lemma detect_calls_detect (frame : ndarray bgr) (fc ec : cascade) :
  detect_calls (trace (detect_faces_and_eyes frame fc ec)) =
  face_call fc frame ::
  map (eye_call ec (cvtColor_BGR2GRAY frame)) (faces_of fc frame).
Proof.
  rewrite detect_trace, detect_calls_app, detect_calls_eye_events.
  reflexivity.
Qed.

Lemma py_int_close (q : Q) :
  q - 1 < inject_Z (py_int q) /\ inject_Z (py_int q) < q + 1.
Proof.
  destruct q as [n d]. unfold py_int, Qlt, Qminus, Qplus, Qopp, inject_Z.
  cbn [Qnum Qden]. rewrite !Pos.mul_1_r, !Z.mul_1_r.
  pose proof (Z.quot_rem' n (Z.pos d)) as Hqr.
  pose proof (Z.rem_bound_abs n (Z.pos d) ltac:(lia)) as Hb.
  split; nia.
Qed.

Lemma recovers_py_int (f : Q) (c : Z) :
  0 < f -> f <= 1 -> recovers f c (py_int (inject_Z c / f)).
Proof.
  intros Hpos Hle. unfold recovers, scaled.
  set (q := inject_Z c / f).
  assert (Hq : q * f == inject_Z c).
  { unfold q. field. intro H0. rewrite H0 in Hpos.
    exact (Qlt_irrefl 0 Hpos). }
  destruct (py_int_close q) as [Hlo Hhi]. split; [split; assumption|].
  set (r := inject_Z (py_int q)) in *. rewrite <- Hq. split.
  - apply Qle_lt_trans with ((q - 1) * f).
    + setoid_replace ((q - 1) * f) with (q * f - f) by ring.
      apply Qplus_le_r. apply Qopp_le_compat. exact Hle.
    + apply Qmult_lt_compat_r; assumption.
  - apply Qlt_le_trans with ((q + 1) * f).
    + apply Qmult_lt_compat_r; assumption.
    + setoid_replace ((q + 1) * f) with (q * f + f) by ring.
      apply Qplus_le_r. exact Hle.
Qed.

Lemma scale_back_half (x y w h : Z) :
  scale_back DETECTION_SCALE (x, y, w, h) =
  (2 * x, 2 * y, 2 * w, 2 * h)%Z.
Proof.
  unfold scale_back. rewrite !py_int_div_half. reflexivity.
Qed.





Context {laws : CV2_laws cv}.

(** The faces of a frame whose rectangles lie inside the downscaled frame
    have non-negative origin and size and end at most at twice the extent
    of the downscaled frame. *)
Lemma faces_of_bounds (fc : cascade) (frame : ndarray bgr) (f : box) :
  (forall b : box,
     In b (raw_faces fc frame) ->
     box_in_shape (nrows (small_gray frame)) (ncols (small_gray frame)) b) ->
  In f (faces_of fc frame) ->
  let '(x, y, w, h) := f in
  (0 <= x /\ 0 <= y /\ 0 <= w /\ 0 <= h /\
   x + w <=
     2 * cvRound (inject_Z (Z.of_nat (ncols frame)) * DETECTION_SCALE) /\
   y + h <=
     2 * cvRound (inject_Z (Z.of_nat (nrows frame)) * DETECTION_SCALE))%Z.
Proof.
  intro Hraw. unfold faces_of. rewrite in_map_iff.
  intros ([[[x y] w] h] & <- & Hin). rewrite scale_back_half.
  apply Hraw in Hin. unfold box_in_shape, small_gray in Hin.
  rewrite cvtColor_rows, cvtColor_cols, resize_rows, resize_cols in Hin.
  destruct (cvRound_half (Z.of_nat (ncols frame)) ltac:(lia)) as (Hc & _).
  destruct (cvRound_half (Z.of_nat (nrows frame)) ltac:(lia)) as (Hr & _).
  rewrite !Z2Nat.id in Hin by assumption. lia.
Qed.

(** C2, as amended: when the rectangles the face cascade reports lie
    inside the downscaled frame, every face returned has a non-negative
    origin and ends at most one pixel beyond the right and the bottom edge
    of the frame; it ends within the width of the frame unless the width
    is 3 more than a multiple of 4, so whenever the width is even, and
    likewise, and independently, for the height. *)
Theorem faces_within_frame_plus_one :
  forall (frame : ndarray bgr) (face_cascade eye_cascade : cascade)
         (f : box),
    let W := Z.of_nat (ncols frame) in
    let H := Z.of_nat (nrows frame) in
    (forall b : box,
       In b (raw_faces face_cascade frame) ->
       box_in_shape (nrows (small_gray frame)) (ncols (small_gray frame))
         b) ->
    In f (fst (value (detect_faces_and_eyes frame face_cascade
                        eye_cascade))) ->
    within_frame (H + 1) (W + 1) f /\
    (let '(x, y, w, h) := f in
     ((W mod 4 <> 3 -> x + w <= W) /\ (Z.even W = true -> x + w <= W) /\
      (H mod 4 <> 3 -> y + h <= H) /\ (Z.even H = true -> y + h <= H))%Z).
Proof.
  intros frame fc ec [[[x y] w] h] W H Hraw.
  rewrite detect_value. cbn [fst].
  intro Hf. pose proof (faces_of_bounds fc frame _ Hraw Hf) as Hb.
  cbn beta iota in Hb. fold W H in Hb.
  destruct (cvRound_half W ltac:(unfold W; lia)) as (_ & HW1 & HWe & HW4).
  destruct (cvRound_half H ltac:(unfold H; lia)) as (_ & HH1 & HHe & HH4).
  unfold within_frame. split; [lia|].
  repeat split; intro E;
    try specialize (HWe E); try specialize (HW4 E);
    try specialize (HHe E); try specialize (HH4 E); lia.
Qed.

End WithCV.

(** C3: for every factor [f] in (0, 1] and every box in downscaled
    coordinates, each coordinate of the rescaled box is within one pixel
    of the exact full-resolution value, and scaling it by [f] gives the
    downscaled coordinate back within one pixel. *)
Theorem scale_back_inverts_scaling :
  forall (f : Q) (x y w h : Z),
    0 < f -> f <= 1 ->
    let '(x', y', w', h') := scale_back f (x, y, w, h) in
    recovers f x x' /\ recovers f y y' /\
    recovers f w w' /\ recovers f h h'.
Proof.
  intros f x y w h Hpos Hle. unfold scale_back.
  repeat split; apply recovers_py_int; assumption.
Qed.

Section NoFaces.

Context {cv : CV2}.

(** C7: when the face cascade reports no face, no eye is returned and the
    only classifier invocation is the one of the face cascade. *)
Theorem no_faces_no_eye_search :
  forall (frame : ndarray bgr) (face_cascade eye_cascade : cascade),
    detectMultiScale face_cascade
      (cvtColor_BGR2GRAY (resize frame DETECTION_SCALE DETECTION_SCALE))
      FACE_SCALE_FACTOR FACE_MIN_NEIGHBORS FACE_MIN_SIZE
      CASCADE_SCALE_IMAGE = [] ->
    let r := detect_faces_and_eyes frame face_cascade eye_cascade in
    value r = ([], []) /\
    detect_calls (trace r) = [face_call face_cascade frame].
Proof.
  intros frame fc ec Hnone r. unfold r.
  rewrite detect_value, detect_calls_detect. unfold faces_of.
  rewrite Hnone. split; reflexivity.
Qed.

End NoFaces.

End DetectFacts.

(** ** The capture loop *)

Module LoopFacts.

Import Detect Loop.

Section WithCV.

Context {cv : CV2}.

Lemma trace_for_each {A} (f : A -> M unit) (l : list A) :
  trace (for_each l f) = flat_map (fun a => trace (f a)) l.
Proof.
  induction l as [|a l IH]; [reflexivity|].
  cbn [for_each flat_map]. rewrite trace_bind, IH. reflexivity.
Qed.

Lemma trace_draw_detections (faces eyes : list box) :
  trace (draw_detections faces eyes) =
  map (rect_event COLOR_FACE) faces ++ map (rect_event COLOR_EYE) eyes.
Proof.
  unfold draw_detections. rewrite trace_bind, !trace_for_each.
  f_equal.
  - induction faces as [|[[[x y] w] h] l IH]; [reflexivity|].
    cbn [flat_map map]. rewrite IH. reflexivity.
  - induction eyes as [|[[[x y] w] h] l IH]; [reflexivity|].
    cbn [flat_map map]. rewrite IH. reflexivity.
Qed.

Lemma trace_draw_statistics (face_count eye_count : Z) (fps pt : float) :
  trace (draw_statistics face_count eye_count fps pt) =
  [EvCopy;
   EvRectangle OnOverlay (10, 10)%Z (300, 150)%Z COLOR_BG (-1)%Z;
   EvAddWeighted (7 # 10) (3 # 10) 0;
   EvPutText (TxtFaces face_count) (20, 30)%Z (6 # 10) COLOR_TEXT 2%Z;
   EvPutText (TxtEyes eye_count) (20, 55)%Z (6 # 10) COLOR_TEXT 2%Z;
   EvPutText (TxtFps fps) (20, 80)%Z (6 # 10) COLOR_TEXT 2%Z;
   EvPutText (TxtProcessing pt) (20, 105)%Z (6 # 10) COLOR_TEXT 2%Z;
   EvPutText TxtBlank (20, 130)%Z (6 # 10) COLOR_TEXT 2%Z;
   EvPutText TxtHintQuit (20, 155)%Z (6 # 10) COLOR_TEXT 2%Z;
   EvPutText TxtHintScreenshot (20, 180)%Z (6 # 10) COLOR_TEXT 2%Z].
Proof. reflexivity. Qed.

Lemma quiet_projections (t : list event) :
  quiet t ->
  detect_calls t = [] /\ shown_face_counts t = [] /\
  (forall c, rectangles c t = []) /\ shown_frames t = 0%nat /\
  Forall loop_message (printed t).
Proof.
  induction 1 as [|e t He _ IH].
  - repeat split; constructor.
  - destruct IH as (H1 & H2 & H3 & H4 & H5).
    destruct e; try contradiction; cbn in *; repeat split;
      try assumption; try (intro c; apply H3).
    constructor; assumption.
Qed.

Lemma quiet_handle_key (st : state) (tk : tick) (calc : Fps.FPSCalculator)
    (fps pt : float) (fcnt ecnt : Z) :
  quiet (trace (handle_key st tk calc fps pt fcnt ecnt)).
Proof.
  unfold handle_key, quiet.
  destruct (Z.land (waitKey tk) 255 =? ord_q)%Z;
    [repeat constructor|].
  destruct (Z.land (waitKey tk) 255 =? ord_s)%Z;
    destruct ((frame_count st + 1) mod 100 =? 0)%Z;
    repeat constructor.
Qed.

Lemma value_handle_key (st : state) (tk : tick) (calc : Fps.FPSCalculator)
    (fps pt : float) (fcnt ecnt : Z) :
  value (handle_key st tk calc fps pt fcnt ecnt) =
  if (Z.land (waitKey tk) 255 =? ord_q)%Z
  then (Break, mkState (frame_count st) calc (start_time st))
  else (Next, mkState (frame_count st + 1) calc (start_time st)).
Proof.
  unfold handle_key.
  destruct (Z.land (waitKey tk) 255 =? ord_q)%Z; [reflexivity|].
  destruct (Z.land (waitKey tk) 255 =? ord_s)%Z;
    destruct ((frame_count st + 1) mod 100 =? 0)%Z; reflexivity.
Qed.

Lemma value_process (fc ec : cascade) (st : state) (tk : tick)
    (frame : ndarray bgr) :
  value (process fc ec st tk frame) = value (key_step fc ec st tk frame).
Proof.
  unfold process. rewrite !value_bind. reflexivity.
Qed.

Lemma trace_process (fc ec : cascade) (st : state) (tk : tick)
    (frame : ndarray bgr) :
  let fe := value (detect_faces_and_eyes frame fc ec) in
  trace (process fc ec st tk frame) =
  trace (detect_faces_and_eyes frame fc ec) ++
  trace (draw_detections (fst fe) (snd fe)) ++
  trace (draw_statistics (Z.min (Z.of_nat (length (fst fe))) 5)
           (Z.of_nat (length (snd fe)))
           (snd (Fps.update (fps_calculator st) (t_update tk)))
           ((t_process_end tk - t_process_start tk) * 1000)%float) ++
  [EvImshow; EvWaitKey 1%Z] ++
  trace (key_step fc ec st tk frame).
Proof.
  intro fe. unfold process. rewrite !trace_bind, ?value_bind.
  reflexivity.
Qed.

Lemma flat_map_map_nil {A B C} (g : B -> list C) (h : A -> B)
    (l : list A) :
  (forall a, g (h a) = []) -> flat_map g (map h l) = [].
Proof.
  intro Hnil. induction l as [|a l IH]; [reflexivity|].
  cbn [map flat_map]. rewrite Hnil, IH. reflexivity.
Qed.

Lemma filter_map_nil {A B} (p : B -> bool) (h : A -> B) (l : list A) :
  (forall a, p (h a) = false) -> filter p (map h l) = [].
Proof.
  intro Hf. induction l as [|a l IH]; [reflexivity|].
  cbn [map filter]. rewrite Hf, IH. reflexivity.
Qed.

(** Detection draws nothing, shows nothing and prints nothing. *)
Lemma detect_projections (frame : ndarray bgr) (fc ec : cascade) :
  let t := trace (detect_faces_and_eyes frame fc ec) in
  shown_face_counts t = [] /\ (forall c, rectangles c t = []) /\
  shown_frames t = 0%nat /\ printed t = [].
Proof.
  intro t. unfold t. rewrite DetectFacts.detect_trace.
  repeat split; try intro c; autorewrite with tr_app; cbn [app].
  - unfold shown_face_counts at 2. now rewrite flat_map_map_nil.
  - unfold rectangles at 2. now rewrite flat_map_map_nil.
  - unfold shown_frames at 2. now rewrite filter_map_nil.
  - unfold printed at 2. now rewrite flat_map_map_nil.
Qed.

Lemma rectangles_face (faces : list box) :
  rectangles COLOR_FACE (map (rect_event COLOR_FACE) faces) =
  map corners faces.
Proof.
  induction faces as [|[[[x y] w] h] l IH]; [reflexivity|].
  cbn [map]. rewrite <- IH. reflexivity.
Qed.

Lemma rectangles_eye (eyes : list box) :
  rectangles COLOR_FACE (map (rect_event COLOR_EYE) eyes) = [].
Proof.
  unfold rectangles. apply flat_map_map_nil.
  intros [[[x y] w] h]. reflexivity.
Qed.

(** Drawing the boxes makes no classifier call, writes no text, shows
    nothing and prints nothing; its face-coloured rectangles are those of
    the faces. *)
Lemma draw_detections_projections (faces eyes : list box) :
  let t := trace (draw_detections faces eyes) in
  detect_calls t = [] /\ shown_face_counts t = [] /\
  rectangles COLOR_FACE t = map corners faces /\
  shown_frames t = 0%nat /\ printed t = [].
Proof.
  intro t. unfold t. rewrite trace_draw_detections.
  repeat split; autorewrite with tr_app.
  - unfold detect_calls.
    rewrite !flat_map_map_nil; [reflexivity|intros [[[x y] w] h]..];
      reflexivity.
  - unfold shown_face_counts.
    rewrite !flat_map_map_nil; [reflexivity|intros [[[x y] w] h]..];
      reflexivity.
  - rewrite rectangles_face, rectangles_eye. apply app_nil_r.
  - unfold shown_frames.
    rewrite !filter_map_nil; [reflexivity|intros [[[x y] w] h]..];
      reflexivity.
  - unfold printed.
    rewrite !flat_map_map_nil; [reflexivity|intros [[[x y] w] h]..];
      reflexivity.
Qed.

Lemma quiet_key_step (fc ec : cascade) (st : state) (tk : tick)
    (frame : ndarray bgr) :
  quiet (trace (key_step fc ec st tk frame)).
Proof. apply quiet_handle_key. Qed.

(** The projections of the trace of an iteration with a frame. *)
Lemma process_projections (fc ec : cascade) (st : state) (tk : tick)
    (frame : ndarray bgr) :
  let faces := fst (value (detect_faces_and_eyes frame fc ec)) in
  let t := trace (process fc ec st tk frame) in
  detect_calls t =
    detect_calls (trace (detect_faces_and_eyes frame fc ec)) /\
  shown_face_counts t = [Z.min (Z.of_nat (length faces)) 5] /\
  rectangles COLOR_FACE t = map corners faces /\
  shown_frames t = 1%nat /\
  printed t = printed (trace (key_step fc ec st tk frame)).
Proof.
  intros faces t. unfold t. rewrite trace_process.
  destruct (detect_projections frame fc ec) as (D2 & D3 & D4 & D5).
  destruct (draw_detections_projections faces
              (snd (value (detect_faces_and_eyes frame fc ec))))
    as (R1 & R2 & R3 & R4 & R5).
  destruct (quiet_projections _ (quiet_key_step fc ec st tk frame))
    as (K1 & K2 & K3 & K4 & _).
  fold faces.
  rewrite trace_draw_statistics.
  repeat split; autorewrite with tr_app.
  - rewrite R1, K1. cbn. rewrite !app_nil_r. reflexivity.
  - rewrite D2, R2, K2. reflexivity.
  - rewrite D3, R3, K3. cbn. rewrite !app_nil_r. reflexivity.
  - rewrite D4, R4, K4. reflexivity.
  - rewrite D5, R5. reflexivity.
Qed.

Lemma value_key_step (fc ec : cascade) (st : state) (tk : tick)
    (frame : ndarray bgr) :
  value (key_step fc ec st tk frame) =
  let calc := fst (Fps.update (fps_calculator st) (t_update tk)) in
  if (Z.land (waitKey tk) 255 =? ord_q)%Z
  then (Break, mkState (frame_count st) calc (start_time st))
  else (Next, mkState (frame_count st + 1) calc (start_time st)).
Proof. unfold key_step. apply value_handle_key. Qed.

Lemma body_none (fc ec : cascade) (st : state) (tk : tick) :
  failed tk -> body fc ec st tk = ((Next, st), [warning]).
Proof. unfold failed, body. intros ->. reflexivity. Qed.

Lemma body_some (fc ec : cascade) (st : state) (tk : tick)
    (frame : ndarray bgr) :
  cap_read tk = Some frame -> body fc ec st tk = process fc ec st tk frame.
Proof. unfold body. intros ->. reflexivity. Qed.

Lemma value_run_cons (fc ec : cascade) (st : state) (tk : tick)
    (rest : list tick) :
  value (run fc ec st (tk :: rest)) =
  match fst (value (body fc ec st tk)) with
  | Break => value (body fc ec st tk)
  | Next => value (run fc ec (snd (value (body fc ec st tk))) rest)
  end.
Proof.
  cbn [run]. rewrite value_bind.
  destruct (fst (value (body fc ec st tk))); reflexivity.
Qed.

Lemma trace_run_cons (fc ec : cascade) (st : state) (tk : tick)
    (rest : list tick) :
  trace (run fc ec st (tk :: rest)) =
  trace (body fc ec st tk) ++
  match fst (value (body fc ec st tk)) with
  | Break => []
  | Next => trace (run fc ec (snd (value (body fc ec st tk))) rest)
  end.
Proof.
  cbn [run]. rewrite trace_bind.
  destruct (fst (value (body fc ec st tk))); reflexivity.
Qed.

(** Every frame shown is counted, except the one on which the loop is
    left; and the loop prints only its own messages. *)
Lemma run_counts (fc ec : cascade) (ticks : list tick) :
  forall st : state,
    let r := run fc ec st ticks in
    (Z.of_nat (shown_frames (trace r)) =
     frame_count (snd (value r)) - frame_count st +
     match fst (value r) with Break => 1 | Next => 0 end)%Z /\
    Forall loop_message (printed (trace r)).
Proof.
  induction ticks as [|tk rest IH]; intros st r; unfold r.
  - cbn. split; [lia|constructor].
  - rewrite value_run_cons, trace_run_cons.
    destruct (cap_read tk) as [frame|] eqn:Hread.
    + rewrite (body_some fc ec st tk frame Hread).
      destruct (process_projections fc ec st tk frame)
        as (_ & _ & _ & Hshown & Hprinted).
      pose proof (quiet_projections _ (quiet_key_step fc ec st tk frame))
        as (_ & _ & _ & _ & Hmsgs).
      rewrite value_process, value_key_step.
      destruct (Z.land (waitKey tk) 255 =? ord_q)%Z.
      * cbn [fst snd frame_count]. rewrite app_nil_r, Hshown, Hprinted.
        split; [lia|exact Hmsgs].
      * cbn [fst snd].
        destruct (IH (mkState (frame_count st + 1)
                       (fst (Fps.update (fps_calculator st) (t_update tk)))
                       (start_time st))) as [Hc Hp].
        cbn [frame_count] in Hc.
        rewrite shown_frames_app, printed_app, Hshown, Hprinted.
        split; [lia|]. apply Forall_app. split; assumption.
    + rewrite (body_none fc ec st tk Hread). cbn [value trace fst snd].
      destruct (IH st) as [Hc Hp].
      rewrite shown_frames_app, printed_app. cbn [shown_frames filter
        length printed flat_map app warning Nat.add].
      split; [exact Hc|]. constructor; [exact I|exact Hp].
Qed.

Lemma printed_finally (st : state) (now : float) :
  printed (trace (finally st now)) =
  MsgCleanup ::
  (if (0 <? frame_count st)%Z
   then
     let total_time := (now - start_time st)%float in
     [MsgSessionStats (frame_count st) total_time
        (if (0 <? total_time)%float
         then (float_of_int (frame_count st) / total_time)%float
         else 0%float)]
   else []) ++ [MsgClosed].
Proof.
  unfold finally. destruct (0 <? frame_count st)%Z; reflexivity.
Qed.

(** The loop never changes the clock reading taken before it. *)
Lemma run_start_time (fc ec : cascade) (ticks : list tick) :
  forall st : state,
    start_time (snd (value (run fc ec st ticks))) = start_time st.
Proof.
  induction ticks as [|tk rest IH]; intro st; [reflexivity|].
  rewrite value_run_cons.
  destruct (cap_read tk) as [frame|] eqn:Hread.
  - rewrite (body_some fc ec st tk frame Hread).
    rewrite value_process, value_key_step.
    destruct (Z.land (waitKey tk) 255 =? ord_q)%Z; cbn [fst snd].
    + reflexivity.
    + rewrite IH. reflexivity.
  - rewrite (body_none fc ec st tk Hread). cbn [value fst snd]. apply IH.
Qed.

Lemma shown_frames_finally (st : state) (now : float) :
  shown_frames (trace (finally st now)) = 0%nat.
Proof.
  unfold finally. destruct (0 <? frame_count st)%Z; reflexivity.
Qed.

Lemma value_session (fc ec : cascade) (t_init t_start : float)
    (ticks : list tick) (t_end : float) :
  value (session fc ec t_init t_start ticks t_end) =
  value (run fc ec (initial_state t_init t_start) ticks).
Proof. unfold session. rewrite !value_bind. reflexivity. Qed.

Lemma trace_session (fc ec : cascade) (t_init t_start : float)
    (ticks : list tick) (t_end : float) :
  trace (session fc ec t_init t_start ticks t_end) =
  trace (run fc ec (initial_state t_init t_start) ticks) ++
  trace (finally
           (snd (value (run fc ec (initial_state t_init t_start) ticks)))
           t_end).
Proof.
  unfold session. rewrite !trace_bind. cbn [trace ret snd].
  rewrite app_nil_r. reflexivity.
Qed.

(** C8: in an iteration with a frame in which [n] faces are detected, the
    statistics panel is given [min(n, 5)] as its face count, while the eye
    cascade is invoked once for each of the [n] faces and a rectangle is
    drawn for each of them. *)
Theorem display_cap_only :
  forall (face_cascade eye_cascade : cascade) (st : state) (tk : tick)
         (frame : ndarray bgr),
    cap_read tk = Some frame ->
    let faces :=
      fst (value (detect_faces_and_eyes frame face_cascade eye_cascade)) in
    let n := Z.of_nat (length faces) in
    let t := trace (body face_cascade eye_cascade st tk) in
    shown_face_counts t = [Z.min n 5] /\
    detect_calls t =
      face_call face_cascade frame ::
      map (eye_call eye_cascade (cvtColor_BGR2GRAY frame)) faces /\
    length (detect_calls t) = S (length faces) /\
    rectangles COLOR_FACE t = map corners faces.
Proof.
  intros fc ec st tk frame Hread faces n t. unfold t.
  rewrite (body_some fc ec st tk frame Hread).
  destruct (process_projections fc ec st tk frame)
    as (Hcalls & Hcount & Hrects & _ & _).
  fold faces in Hcount, Hrects.
  assert (Hc : detect_calls (trace (process fc ec st tk frame)) =
               face_call fc frame ::
               map (eye_call ec (cvtColor_BGR2GRAY frame)) faces).
  { rewrite Hcalls, DetectFacts.detect_calls_detect. unfold faces.
    rewrite DetectFacts.detect_value. reflexivity. }
  repeat split; try assumption.
  rewrite Hc. cbn [length]. rewrite length_map. reflexivity.
Qed.

(** C9: an iteration in which no frame is returned prints the warning and
    goes back to the head of the loop with the state unchanged, making no
    other call; any number of such iterations in a row leaves the loop
    running in the same state, and the iterations that follow run as if
    the failures had not happened. *)
Theorem capture_failure_retries :
  forall (face_cascade eye_cascade : cascade) (st : state)
         (ticks rest : list tick),
    Forall failed ticks ->
    (forall tk, failed tk ->
       body face_cascade eye_cascade st tk = ((Next, st), [warning])) /\
    run face_cascade eye_cascade st ticks =
      ((Next, st), repeat warning (length ticks)) /\
    run face_cascade eye_cascade st (ticks ++ rest) =
      (value (run face_cascade eye_cascade st rest),
       repeat warning (length ticks) ++
       trace (run face_cascade eye_cascade st rest)).
Proof.
  intros fc ec st ticks rest Hall.
  assert (Hgen : forall rest',
            run fc ec st (ticks ++ rest') =
            (value (run fc ec st rest'),
             repeat warning (length ticks) ++ trace (run fc ec st rest'))).
  { intro rest'. induction Hall as [|tk ticks Htk _ IH].
    - cbn [app length repeat]. destruct (run fc ec st rest'). reflexivity.
    - cbn [app run length repeat]. rewrite (body_none fc ec st tk Htk).
      cbn [bind fst snd]. rewrite IH. reflexivity. }
  split; [|split].
  - intros tk Htk. apply body_none, Htk.
  - rewrite <- (app_nil_r ticks) at 1. rewrite Hgen. cbn.
    rewrite app_nil_r. reflexivity.
  - apply Hgen.
Qed.

(** C10: the iteration in which the quit key is read processes and shows
    its frame and updates the frame-rate estimator, then leaves the loop
    with the frame counter unchanged and without a performance line; so
    in a session ended by the quit key one more frame was shown than the
    counter [n] says, and what the session prints after the messages of
    the loop is the cleanup line, then, when [n > 0], the statistics with
    the frame count [n], the total time and the average [n / total time]
    ([0] when the total time is not positive), then the closing line. *)
Theorem quit_frame_not_counted :
  (forall (face_cascade eye_cascade : cascade) (st : state) (tk : tick)
          (frame : ndarray bgr),
     cap_read tk = Some frame -> quits tk ->
     let r := body face_cascade eye_cascade st tk in
     fst (value r) = Break /\
     frame_count (snd (value r)) = frame_count st /\
     fps_calculator (snd (value r)) =
       fst (Fps.update (fps_calculator st) (t_update tk)) /\
     shown_frames (trace r) = 1%nat /\
     printed (trace r) = [MsgQuit]) /\
  (forall (face_cascade eye_cascade : cascade) (t_init t_start : float)
          (ticks : list tick) (t_end : float),
     let r := session face_cascade eye_cascade t_init t_start ticks t_end in
     fst (value r) = Break ->
     let n := frame_count (snd (value r)) in
     let total_time := (t_end - t_start)%float in
     Z.of_nat (shown_frames (trace r)) = (n + 1)%Z /\
     exists loop_messages : list message,
       Forall loop_message loop_messages /\
       printed (trace r) =
         loop_messages ++
         MsgCleanup ::
         (if (0 <? n)%Z
          then [MsgSessionStats n total_time
                  (if (0 <? total_time)%float
                   then (float_of_int n / total_time)%float
                   else 0%float)]
          else []) ++ [MsgClosed]).
Proof.
  split.
  - intros fc ec st tk frame Hread Hq r. unfold r.
    rewrite (body_some fc ec st tk frame Hread).
    destruct (process_projections fc ec st tk frame)
      as (_ & _ & _ & Hshown & Hprinted).
    rewrite value_process, value_key_step, Hshown, Hprinted.
    unfold key_step, handle_key. unfold quits in Hq.
    rewrite Hq, Z.eqb_refl. repeat split.
  - intros fc ec t_init t_start ticks t_end r Hbreak n total_time.
    unfold n, total_time, r in *. clear n total_time r.
    rewrite value_session in *. rewrite trace_session.
    set (st0 := initial_state t_init t_start) in *.
    destruct (run_counts fc ec ticks st0) as [Hc Hmsgs].
    rewrite Hbreak in Hc.
    rewrite shown_frames_app, shown_frames_finally.
    change (frame_count st0) with 0%Z in Hc.
    split; [lia|].
    exists (printed (trace (run fc ec st0 ticks))).
    split; [exact Hmsgs|].
    rewrite printed_app, printed_finally, run_start_time. reflexivity.
Qed.

End WithCV.

End LoopFacts.

(** ** The stand-in for OpenCV and the theorems at concrete inputs *)

Module Examples.

Import Detect Loop Stub.

Lemma stub_laws : CV2_laws stub_cv.
Proof. constructor; reflexivity. Qed.


(** The first stand-in reports rectangles inside the image only. *)
Lemma stub_reports_inside : reports_inside stub_cv.
Proof.
  intros c img sf mn ms fl b. cbn [detectMultiScale stub_cv].
  unfold stub_detect, box_in_shape.
  set (w := Z.of_nat (ncols img)). set (h := Z.of_nat (nrows img)).
  assert (Hw : (0 <= w)%Z) by (unfold w; lia).
  assert (Hh : (0 <= h)%Z) by (unfold h; lia).
  destruct ((fst ms <=? w) && (snd ms <=? h))%Z; [|intros []].
  destruct c; cbn [In].
  - intros [<-|[]]. lia.
  - intros [<-|[<-|[]]]; repeat split;
      Z.to_euclidean_division_equations; lia.
Qed.

(** A 640 by 480 frame: one face over the whole frame and its two eyes. *)
Example detect_640x480 :
  value (detect_faces_and_eyes (black 480 640) true false) =
  ([(0, 0, 640, 480)%Z],
   [(80, 120, 160, 120)%Z; (400, 120, 160, 120)%Z]).
Proof. vm_compute. reflexivity. Qed.

(** A 643 by 483 frame is resized to 322 by 242 pixels, and the face
    that fills the small frame comes back 644 by 484 pixels large. *)
Example detect_643x483 :
  fst (value (detect_faces_and_eyes (black 483 643) true false)) =
  [(0, 0, 644, 484)%Z].
Proof. vm_compute. reflexivity. Qed.


(** C2, as stated, fails: with a cascade that reports a face filling the
    downscaled image, the face returned for a frame 643 wide and 483 high
    ends at column 644 and row 484. *)
Lemma face_box_outside_odd_frame :
  CV2_laws stub_cv /\ reports_inside stub_cv /\
  exists f : box,
    In f (fst (value (detect_faces_and_eyes (black 483 643) true false))) /\
    ~ within_frame (Z.of_nat (nrows (black 483 643)))
        (Z.of_nat (ncols (black 483 643))) f.
Proof.
  split; [exact stub_laws|]. split; [exact stub_reports_inside|].
  exists (0, 0, 644, 484)%Z. split.
  - rewrite detect_643x483. left. reflexivity.
  - unfold within_frame. cbn. lia.
Qed.


Lemma faces_within_frame_plus_one_witness :
  let frame := black 480 640 in
  CV2_laws stub_cv /\
  (forall b : box,
     In b (raw_faces true frame) ->
     box_in_shape (nrows (small_gray frame)) (ncols (small_gray frame)) b) /\
  In (0, 0, 640, 480)%Z
    (fst (value (detect_faces_and_eyes frame true false))) /\
  within_frame 481 641 (0, 0, 640, 480)%Z /\
  ((640 mod 4 <> 3 -> 0 + 640 <= 640) /\
   (Z.even 640 = true -> 0 + 640 <= 640) /\
   (480 mod 4 <> 3 -> 0 + 480 <= 480) /\
   (Z.even 480 = true -> 0 + 480 <= 480))%Z.
Proof.
  intro frame.
  assert (Hraw : forall b : box,
            In b (raw_faces true frame) ->
            box_in_shape (nrows (small_gray frame))
              (ncols (small_gray frame)) b).
  { intros b Hb. exact (stub_reports_inside _ _ _ _ _ _ b Hb). }
  assert (Hin : In (0, 0, 640, 480)%Z
            (fst (value (detect_faces_and_eyes frame true false)))).
  { vm_compute. left. reflexivity. }
  split; [exact stub_laws|]. split; [exact Hraw|]. split; [exact Hin|].
  exact (@DetectFacts.faces_within_frame_plus_one stub_cv stub_laws
           frame true false (0, 0, 640, 480)%Z Hraw Hin).
Defined.

Lemma scale_back_inverts_scaling_witness :
  0 < DETECTION_SCALE /\ DETECTION_SCALE <= 1 /\
  let '(x', y', w', h') :=
    scale_back DETECTION_SCALE (10, 20, 30, 40)%Z in
  recovers DETECTION_SCALE 10 x' /\ recovers DETECTION_SCALE 20 y' /\
  recovers DETECTION_SCALE 30 w' /\ recovers DETECTION_SCALE 40 h'.
Proof.
  assert (Hpos : 0 < DETECTION_SCALE) by reflexivity.
  assert (Hle : DETECTION_SCALE <= 1) by (unfold Qle; simpl; lia).
  split; [exact Hpos|]. split; [exact Hle|].
  exact (DetectFacts.scale_back_inverts_scaling DETECTION_SCALE
           10 20 30 40 Hpos Hle).
Defined.

Lemma no_faces_no_eye_search_witness :
  let r := detect_faces_and_eyes (black 20 20) true false in
  value r = ([], []) /\
  detect_calls (trace r) = [face_call true (black 20 20)].
Proof.
  apply (@DetectFacts.no_faces_no_eye_search stub_cv (black 20 20) true
           false).
  reflexivity.
Defined.



Lemma nonpositive_delta_ignored_witness :
  let self := Fps.mkFPS (Fps.mkDeque [0.125%float] 30) 1%float in
  (2 - 2 <=? 0)%float = true /\
  Fps.frame_times (fst (Fps.update (fst (Fps.update self 2%float))
                          2%float)) =
  Fps.frame_times (fst (Fps.update self 2%float)) /\
  snd (Fps.update (fst (Fps.update self 2%float)) 2%float) =
  snd (Fps.update self 2%float).
Proof.
  intro self.
  assert (Hle : (2 - 2 <=? 0)%float = true) by reflexivity.
  split; [exact Hle|].
  exact (FpsFacts.nonpositive_delta_ignored self 2%float 2%float Hle).
Defined.


Lemma display_cap_only_witness :
  let tk := frame_tick 480 640 1%float (-1) in
  let t :=
    trace (@body crowd_cv true false (initial_state 0%float 0%float) tk) in
  cap_read tk = Some (black 480 640) /\
  shown_face_counts t = [5%Z] /\
  length (detect_calls t) = 8%nat /\
  length (rectangles COLOR_FACE t) = 7%nat.
Proof.
  intros tk t.
  assert (Hread : cap_read tk = Some (black 480 640)) by reflexivity.
  split; [exact Hread|].
  pose proof (@LoopFacts.display_cap_only crowd_cv true false
                (initial_state 0%float 0%float) tk (black 480 640) Hread)
    as (Hshown & _ & Hcalls & Hrects).
  split; [exact Hshown|]. split; [exact Hcalls|].
  fold t in Hrects. rewrite Hrects. reflexivity.
Defined.

Lemma capture_failure_retries_witness :
  Forall failed [no_frame_tick; no_frame_tick] /\
  run true false (initial_state 0%float 0%float)
    [no_frame_tick; no_frame_tick] =
  ((Next, initial_state 0%float 0%float), [warning; warning]).
Proof.
  assert (Hall : Forall failed [no_frame_tick; no_frame_tick])
    by (repeat constructor).
  split; [exact Hall|].
  exact (proj1 (proj2 (@LoopFacts.capture_failure_retries stub_cv true
                         false (initial_state 0%float 0%float)
                         [no_frame_tick; no_frame_tick] [] Hall))).
Defined.

Lemma quit_frame_not_counted_witness :
  let tk := frame_tick 480 640 1%float 113 in
  let st := initial_state 0%float 0%float in
  let ticks :=
    [frame_tick 480 640 1%float (-1); frame_tick 480 640 2%float 113] in
  let r := session true false 0%float 0%float ticks 4%float in
  cap_read tk = Some (black 480 640) /\ quits tk /\
  frame_count (snd (value (body true false st tk))) = 0%Z /\
  shown_frames (trace (body true false st tk)) = 1%nat /\
  fst (value r) = Break /\
  frame_count (snd (value r)) = 1%Z /\
  shown_frames (trace r) = 2%nat /\
  printed (trace r) =
    [MsgQuit; MsgCleanup; MsgSessionStats 1 4%float 0.25%float; MsgClosed].
Proof.
  intros tk st ticks r.
  assert (Hread : cap_read tk = Some (black 480 640)) by reflexivity.
  assert (Hq : quits tk) by reflexivity.
  assert (Hbreak : fst (value r) = Break) by reflexivity.
  split; [exact Hread|]. split; [exact Hq|].
  pose proof (proj1 (@LoopFacts.quit_frame_not_counted stub_cv) true false
                st tk (black 480 640) Hread Hq)
    as (_ & Hcount & _ & Hshown & _).
  split; [exact Hcount|]. split; [exact Hshown|].
  split; [exact Hbreak|].
  pose proof (proj2 (@LoopFacts.quit_frame_not_counted stub_cv) true false
                0%float 0%float ticks 4%float Hbreak)
    as (Hframes & msgs & _ & Hprinted).
  split; [reflexivity|]. split; [reflexivity|]. reflexivity.
Defined.

End Examples.

(* ====================================================================== *)
(** * Further properties *)
(* ====================================================================== *)

(** ** FPSCalculator: values returned and contents of the window *)

Module FpsMore.

Import Fps FpsFacts.

(** A positive float is a number, and it is neither zero nor negative. *)
Lemma float_positive_number (x : float) :
  (0 <? x)%float = true ->
  (x =? x)%float = true /\ (x <=? 0)%float = false.
Proof.
  rewrite ltb_spec, eqb_spec, leb_spec, Prim2SF_zero.
  destruct (Prim2SF x) as [[]|[]| |[] m e]; cbn; try discriminate;
    intros _; split; try reflexivity.
  unfold SFeqb. cbn. rewrite Z.compare_refl.
  fold (Pos.compare m m). rewrite Pos.compare_refl. reflexivity.
Qed.

Lemma fps_of_nonneg (w : list float) : (0 <=? fps_of w)%float = true.
Proof.
  unfold fps_of. destruct (0 <? length w)%nat; [|reflexivity].
  destruct (0 <? py_sum w / py_len w)%float eqn:E; [|reflexivity].
  apply float_inverse_nonneg, E.
Qed.

Lemma positive_append (d : deque) (x : float) :
  Forall (fun y => (0 <? y)%float = true) (items d) ->
  (0 <? x)%float = true ->
  Forall (fun y => (0 <? y)%float = true) (items (append d x)).
Proof.
  intros Hall Hx. unfold append. cbn [items].
  assert (H : Forall (fun y => (0 <? y)%float = true) (items d ++ [x])).
  { apply Forall_app. split; [exact Hall|]. constructor; [exact Hx|].
    constructor. }
  destruct (maxlen d <? length (items d ++ [x]))%nat; [|exact H].
  destruct (items d ++ [x]); [constructor|].
  cbn [tl]. exact (Forall_inv_tail H).
Qed.

Lemma positive_update (self : FPSCalculator) (t : float) :
  Forall (fun y => (0 <? y)%float = true) (items (frame_times self)) ->
  Forall (fun y => (0 <? y)%float = true)
    (items (frame_times (fst (update self t)))).
Proof.
  intro Hall. unfold update, pushed. cbn [fst frame_times].
  destruct (0 <? t - last_time self)%float eqn:E; [|exact Hall].
  apply positive_append; [exact Hall|exact E].
Qed.

Lemma positive_updates (ts : list float) : forall self : FPSCalculator,
  Forall (fun y => (0 <? y)%float = true) (items (frame_times self)) ->
  Forall (fun y => (0 <? y)%float = true)
    (items (frame_times (fst (updates self ts)))).
Proof.
  induction ts as [|t ts IH]; intros self Hall; [exact Hall|].
  rewrite fst_updates_cons. apply IH, positive_update, Hall.
Qed.

(** X1: whatever the state and the clock reading, the value [update]
    returns is never negative, and it is a number: it is zero, positive
    or [+inf]. *)
Theorem update_never_negative :
  forall (self : FPSCalculator) (t : float),
    (0 <=? snd (update self t))%float = true.
Proof. intros self t. apply fps_of_nonneg. Qed.

(** X2: in every state reached from a new calculator, every sample of the
    window is a positive float, so a number that is neither zero nor
    negative; and it stays so after the next call, whatever the clock
    reads. *)
Theorem reachable_window_positive :
  forall (c : Z) (now : float) (calc : FPSCalculator) (ts : list float),
    init c now = Some calc ->
    let cur := fst (updates calc ts) in
    Forall (fun x => (0 <? x)%float = true /\
                     (x =? x)%float = true /\ (x <=? 0)%float = false)
      (items (frame_times cur)) /\
    (forall t : float,
       Forall (fun x => (0 <? x)%float = true)
         (items (frame_times (fst (update cur t))))).
Proof.
  intros c now calc ts Hinit cur.
  destruct (wf_init c now calc Hinit) as (_ & _ & Hempty & _).
  assert (Hcur : Forall (fun x => (0 <? x)%float = true)
                   (items (frame_times cur))).
  { apply positive_updates. rewrite Hempty. constructor. }
  split.
  - eapply Forall_impl; [|exact Hcur]. intros x Hx.
    split; [exact Hx|]. apply float_positive_number, Hx.
  - intro t. apply positive_update, Hcur.
Qed.

(** X4: a calculator built with capacity [0] never holds a sample, and
    every call of [update] on it returns [0]. *)
Theorem zero_capacity_reports_zero :
  forall (now : float) (calc : FPSCalculator) (ts : list float),
    init 0 now = Some calc ->
    items (frame_times (fst (updates calc ts))) = [] /\
    Forall (eq 0%float) (snd (updates calc ts)).
Proof.
  intros now calc ts Hinit.
  destruct (wf_init 0 now calc Hinit) as (Hwf & Hmax & _ & _).
  assert (Hnil : forall ts' self,
            wf self -> maxlen (frame_times self) = 0%nat ->
            items (frame_times (fst (updates self ts'))) = []).
  { intros ts' self Hw Hm.
    destruct (wf_updates ts' self Hw) as [Hw' Hm']. unfold wf in Hw'.
    rewrite Hm', Hm in Hw'.
    destruct (items (frame_times (fst (updates self ts'))));
      [reflexivity|simpl in Hw'; lia]. }
  split; [apply Hnil; assumption|].
  clear Hinit. revert calc Hwf Hmax.
  induction ts as [|t ts IH]; intros calc Hwf Hmax; [constructor|].
  rewrite snd_updates_cons.
  destruct (wf_update calc t Hwf) as [Hwf1 Hmax1].
  constructor.
  - change (snd (update calc t))
      with (fps_of (items (frame_times (fst (update calc t))))).
    pose proof (Hnil [t] calc Hwf Hmax) as H1.
    rewrite fst_updates_cons in H1. cbn [updates fst] in H1.
    rewrite H1. reflexivity.
  - apply IH; [exact Hwf1|congruence].
Qed.

(** X5: after a run of [update] calls on a well-formed calculator, the
    window holds the newest [maxlen] of its former samples followed by
    the positive deltas measured, in order; and the calculator remembers
    the last clock reading, whether its delta was kept or not. *)
Theorem window_holds_newest_positive_deltas :
  forall (self : FPSCalculator) (ts : list float),
    wf self ->
    let cur := fst (updates self ts) in
    items (frame_times cur) =
      newest (maxlen (frame_times self))
        (items (frame_times self) ++ kept (deltas (last_time self) ts)) /\
    last_time cur = last ts (last_time self).
Proof.
  intros self ts Hwf cur. unfold cur.
  destruct (frame_times_updates ts self) as [Hft Hlt].
  split; [|exact Hlt]. rewrite Hft.
  destruct (items_fold_append (kept (deltas (last_time self) ts))
              (frame_times self) Hwf) as [Hi _].
  rewrite Hi. reflexivity.
Qed.

End FpsMore.

(** ** detect_faces_and_eyes: faces, regions of interest and eyes *)

Module DetectMore.

Import Detect Loop DetectFacts.

Lemma slice_axis_inside (n : nat) (a w : Z) :
  (0 <= a)%Z ->
  (0 < snd (slice_axis n a (a + w)))%nat ->
  fst (slice_axis n a (a + w)) = Z.to_nat a /\
  (fst (slice_axis n a (a + w)) + snd (slice_axis n a (a + w)) <= n)%nat.
Proof.
  unfold slice_axis, clip. cbn [fst snd]. intros Ha Hlen.
  destruct (Z.ltb_spec a 0); destruct (Z.ltb_spec (a + w) 0); lia.
Qed.

Section WithCV.

Context {cv : CV2}.

(** X6: the faces returned are the boxes of the face cascade, in the same
    order, with each of the four numbers doubled: dividing by the scale
    0.5 and truncating loses nothing. *)
Theorem faces_are_doubled_boxes :
  forall (frame : ndarray bgr) (face_cascade eye_cascade : cascade),
    fst (value (detect_faces_and_eyes frame face_cascade eye_cascade)) =
    map (fun b : box =>
           let '(x, y, w, h) := b in (2 * x, 2 * y, 2 * w, 2 * h)%Z)
      (detectMultiScale face_cascade
         (cvtColor_BGR2GRAY
            (resize frame DETECTION_SCALE DETECTION_SCALE))
         FACE_SCALE_FACTOR FACE_MIN_NEIGHBORS FACE_MIN_SIZE
         CASCADE_SCALE_IMAGE).
Proof.
  intros frame fc ec. rewrite detect_value. cbn [fst]. unfold faces_of.
  apply map_ext. intros [[[x y] w] h]. apply scale_back_half.
Qed.

(** X7: for a face with non-negative origin and size, the pixel [(i, j)]
    of its region of interest is the pixel [(fy + i, fx + j)] of the full
    image and lies in it; and when the face lies within the image the
    region has exactly the size of the face. *)
Theorem face_roi_is_the_face_region :
  forall (gray_full : ndarray Z) (fx fy fw fh : Z),
    (0 <= fx)%Z -> (0 <= fy)%Z -> (0 <= fw)%Z -> (0 <= fh)%Z ->
    let roi := face_roi gray_full (fx, fy, fw, fh) in
    (forall i j : nat,
       (i < nrows roi)%nat -> (j < ncols roi)%nat ->
       item roi i j = item gray_full (Z.to_nat fy + i) (Z.to_nat fx + j) /\
       (Z.to_nat fy + i < nrows gray_full)%nat /\
       (Z.to_nat fx + j < ncols gray_full)%nat) /\
    ((fx + fw <= Z.of_nat (ncols gray_full))%Z ->
     (fy + fh <= Z.of_nat (nrows gray_full))%Z ->
     nrows roi = Z.to_nat fh /\ ncols roi = Z.to_nat fw).
Proof.
  intros g fx fy fw fh Hx Hy Hw Hh roi. unfold roi, face_roi, slice2.
  pose proof (slice_axis_inside (nrows g) fy fh Hy) as Hr.
  pose proof (slice_axis_inside (ncols g) fx fw Hx) as Hc.
  pose proof (slice_axis_exact (nrows g) fy fh Hy Hh) as Er.
  pose proof (slice_axis_exact (ncols g) fx fw Hx Hw) as Ec.
  destruct (slice_axis (nrows g) fy (fy + fh)) as [ro rl].
  destruct (slice_axis (ncols g) fx (fx + fw)) as [co cl].
  cbn [nrows ncols item fst snd] in *. split.
  - intros i j Hi Hj.
    destruct (Hr ltac:(lia)) as [-> Hrb].
    destruct (Hc ltac:(lia)) as [-> Hcb].
    split; [reflexivity|split; lia].
  - intros Hcols Hrows. specialize (Er Hrows). specialize (Ec Hcols).
    injection Er as _ ->. injection Ec as _ ->. split; reflexivity.
Qed.

(** X9: the calls [detect_faces_and_eyes] makes are one resize, two
    colour conversions and one classifier call for the faces plus one for
    each face returned; it draws, shows and prints nothing. *)
Theorem detection_only_calls_opencv :
  forall (frame : ndarray bgr) (face_cascade eye_cascade : cascade),
    let r := detect_faces_and_eyes frame face_cascade eye_cascade in
    Forall cv_call (trace r) /\
    length (trace r) = (4 + length (fst (value r)))%nat /\
    length (detect_calls (trace r)) = (1 + length (fst (value r)))%nat.
Proof.
  intros frame fc ec r. unfold r.
  rewrite detect_calls_detect, detect_trace, detect_value. cbn [fst].
  split; [|split].
  - apply Forall_app. split; [repeat constructor|].
    apply Forall_forall. intros e He. apply in_map_iff in He.
    destruct He as (f & <- & _). exact I.
  - rewrite length_app, length_map. reflexivity.
  - cbn [length]. rewrite length_map. reflexivity.
Qed.

Context {laws : CV2_laws cv}.

(** X8: with cascades that report rectangles inside the image they are
    given, every eye returned that has a positive width and height lies
    within the extent of the frame, also when the face it was found in
    reaches beyond the frame. *)
Theorem eyes_within_frame :
  forall (frame : ndarray bgr) (face_cascade eye_cascade : cascade)
         (x y w h : Z),
    reports_inside cv ->
    In (x, y, w, h)
      (snd (value (detect_faces_and_eyes frame face_cascade eye_cascade))) ->
    (0 < w)%Z -> (0 < h)%Z ->
    within_frame (Z.of_nat (nrows frame)) (Z.of_nat (ncols frame))
      (x, y, w, h).
Proof.
  intros frame fc ec x y w h Hrep Hin Hw Hh.
  rewrite detect_value in Hin. cbn [snd] in Hin.
  rewrite in_flat_map in Hin.
  destruct Hin as ([[[fx fy] fw] fh] & Hf & He).
  pose proof (faces_of_bounds fc frame _
                (fun b Hb => Hrep _ _ _ _ _ _ b Hb) Hf) as Hb.
  cbn beta iota in Hb.
  unfold eyes_of_face in He. rewrite in_map_iff in He.
  destruct He as ([[[ex ey] ew] eh] & Heq & He).
  injection Heq as <- <- <- <-.
  apply Hrep in He. unfold box_in_shape in He.
  unfold face_roi, slice2 in He.
  set (g := cvtColor_BGR2GRAY frame) in *.
  pose proof (slice_axis_inside (nrows g) fy fh ltac:(lia)) as Hr.
  pose proof (slice_axis_inside (ncols g) fx fw ltac:(lia)) as Hc.
  destruct (slice_axis (nrows g) fy (fy + fh)) as [ro rl].
  destruct (slice_axis (ncols g) fx (fx + fw)) as [co cl].
  cbn [nrows ncols fst snd] in *.
  destruct (Hr ltac:(lia)) as [-> Hrb].
  destruct (Hc ltac:(lia)) as [-> Hcb].
  unfold g in Hrb, Hcb. rewrite cvtColor_rows in Hrb.
  rewrite cvtColor_cols in Hcb.
  unfold within_frame. lia.
Qed.

End WithCV.

End DetectMore.

(** ** The overlay, the key handling and the session *)

Module LoopMore.

Import Detect Loop DetectFacts LoopFacts.

Section WithCV.

Context {cv : CV2}.

(** X10: whatever it is given, [draw_statistics] blends one panel from
    (10, 10) to (300, 150) and writes seven lines at x = 20 and
    y = 30, 55, ..., 180; the lines written below the bottom edge of the
    panel are exactly the two key hints. *)
Theorem statistics_panel_layout :
  forall (face_count eye_count : Z) (fps processing_time : float),
    let t :=
      trace (draw_statistics face_count eye_count fps processing_time) in
    panels t = [((10, 10), (300, 150))%Z] /\
    map fst (text_lines t) =
      [TxtFaces face_count; TxtEyes eye_count; TxtFps fps;
       TxtProcessing processing_time; TxtBlank; TxtHintQuit;
       TxtHintScreenshot] /\
    map snd (text_lines t) =
      map (fun i => (20, 30 + 25 * i)%Z) [0; 1; 2; 3; 4; 5; 6]%Z /\
    (forall (txt : text) (x y : Z),
       In (txt, (x, y)) (text_lines t) ->
       ((150 < y)%Z <-> txt = TxtHintQuit \/ txt = TxtHintScreenshot)).
Proof.
  intros fcnt ecnt fps pt t. unfold t. rewrite trace_draw_statistics.
  split; [reflexivity|]. split; [reflexivity|]. split; [reflexivity|].
  intros txt x y Hin. cbn in Hin.
  repeat (destruct Hin as [Hin|Hin];
          [injection Hin as <- <- <-;
           split; [intro Hy; try lia; auto
                  |intros [Ht|Ht]; try discriminate; lia]|]).
  destruct Hin.
Qed.

(** The value of an iteration. *)
Lemma value_body (fc ec : cascade) (st : state) (tk : tick) :
  value (body fc ec st tk) =
  if has_frame tk then
    let calc := fst (Fps.update (fps_calculator st) (t_update tk)) in
    if quit_key tk
    then (Break, mkState (frame_count st) calc (start_time st))
    else (Next, mkState (frame_count st + 1) calc (start_time st))
  else (Next, st).
Proof.
  unfold has_frame. destruct (cap_read tk) as [frame|] eqn:Hread.
  - rewrite (body_some fc ec st tk frame Hread).
    rewrite value_process, value_key_step. reflexivity.
  - rewrite (body_none fc ec st tk Hread). reflexivity.
Qed.

(** X11: the loop is left exactly when some tick both delivers a frame
    and reads the quit key in the low byte of the key code; a key read
    while no frame is delivered does not exist, and any other key goes
    on. *)
Theorem loop_left_iff_quit_on_a_frame :
  forall (face_cascade eye_cascade : cascade) (ticks : list tick)
         (st : state),
    fst (value (run face_cascade eye_cascade st ticks)) = Break <->
    Exists (fun tk => has_frame tk = true /\ quit_key tk = true) ticks.
Proof.
  intros fc ec ticks. induction ticks as [|tk rest IH]; intro st.
  - cbn. split; [discriminate|]. intro H. inversion H.
  - rewrite value_run_cons, value_body.
    destruct (has_frame tk) eqn:Hf; [destruct (quit_key tk) eqn:Hq|];
      cbn [fst snd].
    + split; [|reflexivity]. intros _. left. split; assumption.
    + rewrite IH. split; [intro H; right; exact H|].
      intro H. inversion H as [? ? [_ Habs]|? ? Hr]; subst;
        [congruence|exact Hr].
    + rewrite IH. split; [intro H; right; exact H|].
      intro H. inversion H as [? ? [Habs _]|? ? Hr]; subst;
        [congruence|exact Hr].
Qed.

(** X15: the ticks after the one on which the loop is left are never
    asked for: the run is the same without them. *)
Theorem nothing_read_after_quit :
  forall (face_cascade eye_cascade : cascade) (before after : list tick)
         (tq : tick) (st : state),
    has_frame tq = true -> quit_key tq = true ->
    run face_cascade eye_cascade st (before ++ tq :: after) =
    run face_cascade eye_cascade st (before ++ [tq]).
Proof.
  intros fc ec before after tq st Hf Hq. revert st.
  induction before as [|tk before IH]; intro st.
  - cbn [app run].
    pose proof (value_body fc ec st tq) as Hv. rewrite Hf, Hq in Hv.
    unfold value in Hv. destruct (body fc ec st tq) as [[c st'] t].
    cbn [fst] in Hv. injection Hv as -> _. reflexivity.
  - cbn [app run]. destruct (body fc ec st tk) as [[c st'] t].
    cbn [bind fst snd]. destruct c; [|reflexivity].
    rewrite IH. reflexivity.
Qed.

(** X14: during a run the frame-rate calculator is updated once for every
    frame delivered, the frame of the quit key included, with the clock
    readings in order, and the start time is kept. *)
Theorem calculator_updated_once_per_frame :
  forall (face_cascade eye_cascade : cascade) (ticks : list tick)
         (st : state),
    let st' := snd (value (run face_cascade eye_cascade st ticks)) in
    fps_calculator st' =
      fst (Fps.updates (fps_calculator st) (update_times ticks)) /\
    start_time st' = start_time st.
Proof.
  intros fc ec ticks. induction ticks as [|tk rest IH]; intros st st'.
  - split; reflexivity.
  - unfold st'. rewrite value_run_cons, value_body. cbn [update_times].
    destruct (has_frame tk); [destruct (quit_key tk)|]; cbn [fst snd].
    + split; [|reflexivity]. cbn [fps_calculator].
      rewrite FpsFacts.fst_updates_cons. reflexivity.
    + destruct (IH (mkState (frame_count st + 1)
                      (fst (Fps.update (fps_calculator st) (t_update tk)))
                      (start_time st))) as [Hc Hs].
      cbn [fps_calculator start_time] in Hc, Hs.
      rewrite FpsFacts.fst_updates_cons. split; assumption.
    + apply IH.
Qed.

Lemma trace_handle_key (st : state) (tk : tick) (calc : Fps.FPSCalculator)
    (fps pt : float) (fcnt ecnt : Z) :
  trace (handle_key st tk calc fps pt fcnt ecnt) =
  if quit_key tk then [EvPrint MsgQuit]
  else
    (if screenshot_key tk
     then [EvImwrite; EvPrint MsgScreenshotSaved] else []) ++
    (if ((frame_count st + 1) mod 100 =? 0)%Z
     then [EvPrint
             (MsgPerformance
                (if (0 <? t_summary tk - start_time st)%float
                 then (float_of_int (frame_count st + 1) /
                       (t_summary tk - start_time st))%float
                 else 0%float)
                fps pt fcnt ecnt)]
     else []).
Proof.
  unfold handle_key, quit_key, screenshot_key.
  destruct (Z.land (waitKey tk) 255 =? ord_q)%Z; [reflexivity|].
  destruct (Z.land (waitKey tk) 255 =? ord_s)%Z;
    destruct ((frame_count st + 1) mod 100 =? 0)%Z; reflexivity.
Qed.

(** The two keys are different: a key code is not both. *)
Lemma quit_key_not_screenshot_key (tk : tick) :
  screenshot_key tk = true -> quit_key tk = false.
Proof.
  unfold screenshot_key, quit_key, ord_s, ord_q. intro Hs.
  apply Z.eqb_eq in Hs. rewrite Hs. reflexivity.
Qed.

Lemma drawing_or_cv_projections (t : list event) :
  Forall drawing_or_cv t ->
  screenshots t = 0%nat /\ releases t = 0%nat /\ teardowns t = 0%nat /\
  printed t = [] /\ Forall loop_event t.
Proof.
  induction 1 as [|e t He _ IH].
  - repeat split; constructor.
  - destruct IH as (H1 & H2 & H3 & H4 & H5).
    destruct e; try contradiction; cbn in *; repeat split;
      try assumption; constructor; try assumption; exact I.
Qed.

Lemma quiet_loop_events (t : list event) :
  quiet t ->
  Forall loop_event t /\ releases t = 0%nat /\ teardowns t = 0%nat.
Proof.
  induction 1 as [|e t He _ IH].
  - repeat split; constructor.
  - destruct IH as (H1 & H2 & H3).
    destruct e; try contradiction; cbn in *; repeat split;
      try assumption; constructor; assumption.
Qed.

(** The calls of an iteration with a frame: OpenCV calls, drawing and
    display, then the key handling. *)
Lemma trace_process_split (fc ec : cascade) (st : state) (tk : tick)
    (frame : ndarray bgr) :
  exists pre : list event,
    trace (process fc ec st tk frame) =
    pre ++ trace (key_step fc ec st tk frame) /\
    Forall drawing_or_cv pre.
Proof.
  rewrite trace_process.
  set (fe := value (detect_faces_and_eyes frame fc ec)).
  exists (trace (detect_faces_and_eyes frame fc ec) ++
          trace (draw_detections (fst fe) (snd fe)) ++
          trace (draw_statistics (Z.min (Z.of_nat (length (fst fe))) 5)
                   (Z.of_nat (length (snd fe)))
                   (snd (Fps.update (fps_calculator st) (t_update tk)))
                   ((t_process_end tk - t_process_start tk) * 1000)%float) ++
          [EvImshow; EvWaitKey 1%Z]).
  split; [rewrite <- !app_assoc; reflexivity|].
  rewrite detect_trace, trace_draw_detections, trace_draw_statistics.
  assert (Hrect : forall c l, Forall drawing_or_cv (map (rect_event c) l)).
  { intros c l. apply Forall_forall. intros e He. apply in_map_iff in He.
    destruct He as ([[[x y] w] h] & <- & _). exact I. }
  apply Forall_app. split.
  - apply Forall_app. split.
    + constructor; [exact I|]. constructor; [exact I|].
      constructor; [exact I|]. constructor; [exact I|]. constructor.
    + apply Forall_forall. intros e He. apply in_map_iff in He.
      destruct He as (f & <- & _). exact I.
  - apply Forall_app. split.
    + apply Forall_app. split; apply Hrect.
    + apply Forall_forall. intros e He. cbn in He.
      repeat (destruct He as [<-|He]; [exact I|]). destruct He.
Qed.

Lemma screenshots_app (t1 t2 : list event) :
  screenshots (t1 ++ t2) = (screenshots t1 + screenshots t2)%nat.
Proof. unfold screenshots. rewrite filter_app. apply length_app. Qed.

Lemma releases_app (t1 t2 : list event) :
  releases (t1 ++ t2) = (releases t1 + releases t2)%nat.
Proof. unfold releases. rewrite filter_app. apply length_app. Qed.

Lemma teardowns_app (t1 t2 : list event) :
  teardowns (t1 ++ t2) = (teardowns t1 + teardowns t2)%nat.
Proof. unfold teardowns. rewrite filter_app. apply length_app. Qed.

Lemma performance_lines_app (m1 m2 : list message) :
  performance_lines (m1 ++ m2) =
  (performance_lines m1 + performance_lines m2)%nat.
Proof. unfold performance_lines. rewrite filter_app. apply length_app. Qed.

(** X12: an iteration writes a screenshot exactly when it has a frame and
    reads the screenshot key, and then writes one; such an iteration
    counts its frame and stays in the loop. *)
Theorem screenshot_exactly_on_s :
  forall (face_cascade eye_cascade : cascade) (st : state) (tk : tick),
    let r := body face_cascade eye_cascade st tk in
    screenshots (trace r) =
      (if has_frame tk && screenshot_key tk then 1 else 0)%nat /\
    (has_frame tk = true -> screenshot_key tk = true ->
     value r =
       (Next,
        mkState (frame_count st + 1)
          (fst (Fps.update (fps_calculator st) (t_update tk)))
          (start_time st))).
Proof.
  intros fc ec st tk r. unfold r. split.
  - unfold has_frame. destruct (cap_read tk) as [frame|] eqn:Hread.
    + rewrite (body_some fc ec st tk frame Hread).
      destruct (trace_process_split fc ec st tk frame) as (pre & -> & Hpre).
      destruct (drawing_or_cv_projections pre Hpre) as (Hs & _).
      rewrite screenshots_app, Hs. unfold key_step.
      rewrite trace_handle_key. cbn [andb Nat.add].
      destruct (screenshot_key tk) eqn:Hk.
      * rewrite (quit_key_not_screenshot_key tk Hk).
        destruct ((frame_count st + 1) mod 100 =? 0)%Z; reflexivity.
      * destruct (quit_key tk); [reflexivity|].
        destruct ((frame_count st + 1) mod 100 =? 0)%Z; reflexivity.
    + rewrite (body_none fc ec st tk Hread). reflexivity.
  - intros Hf Hk. rewrite value_body, Hf.
    rewrite (quit_key_not_screenshot_key tk Hk). reflexivity.
Qed.

Lemma performance_lines_body (fc ec : cascade) (st : state) (tk : tick) :
  performance_lines (printed (trace (body fc ec st tk))) =
  if has_frame tk && negb (quit_key tk) &&
     ((frame_count st + 1) mod 100 =? 0)%Z
  then 1%nat else 0%nat.
Proof.
  unfold has_frame. destruct (cap_read tk) as [frame|] eqn:Hread.
  - rewrite (body_some fc ec st tk frame Hread).
    destruct (process_projections fc ec st tk frame)
      as (_ & _ & _ & _ & ->).
    unfold key_step. rewrite trace_handle_key.
    destruct (quit_key tk); [reflexivity|].
    destruct (screenshot_key tk);
      destruct ((frame_count st + 1) mod 100 =? 0)%Z; reflexivity.
  - rewrite (body_none fc ec st tk Hread). reflexivity.
Qed.

(** X13: a performance line is printed each time the frame counter
    reaches a multiple of 100, and at no other time: after a run the
    number of lines printed is the number of multiples of 100 the counter
    has passed. *)
Theorem performance_line_every_100_frames :
  forall (face_cascade eye_cascade : cascade) (ticks : list tick)
         (st : state),
    let r := run face_cascade eye_cascade st ticks in
    Z.of_nat (performance_lines (printed (trace r))) =
    (frame_count (snd (value r)) / 100 - frame_count st / 100)%Z.
Proof.
  intros fc ec ticks. induction ticks as [|tk rest IH]; intros st r.
  - cbn. lia.
  - unfold r. rewrite value_run_cons, trace_run_cons, printed_app,
      performance_lines_app, performance_lines_body, value_body.
    destruct (has_frame tk); [destruct (quit_key tk)|];
      cbn [fst snd andb negb frame_count Nat.add].
    + cbn. lia.
    + specialize (IH (mkState (frame_count st + 1)
                        (fst (Fps.update (fps_calculator st) (t_update tk)))
                        (start_time st))).
      cbn [frame_count] in IH.
      destruct (Z.eqb_spec ((frame_count st + 1) mod 100) 0) as [E|E];
        rewrite Nat2Z.inj_add, IH; cbn [Z.of_nat];
        Z.to_euclidean_division_equations; lia.
    + exact (IH st).
Qed.

Lemma run_loop_events (fc ec : cascade) (ticks : list tick) :
  forall st : state,
    Forall loop_event (trace (run fc ec st ticks)) /\
    start_time (snd (value (run fc ec st ticks))) = start_time st.
Proof.
  induction ticks as [|tk rest IH]; intro st.
  - split; [constructor|reflexivity].
  - rewrite value_run_cons, trace_run_cons.
    assert (Hbody : Forall loop_event (trace (body fc ec st tk))).
    { destruct (cap_read tk) as [frame|] eqn:Hread.
      - rewrite (body_some fc ec st tk frame Hread).
        destruct (trace_process_split fc ec st tk frame)
          as (pre & -> & Hpre).
        apply Forall_app. split.
        + apply (drawing_or_cv_projections pre Hpre).
        + apply quiet_loop_events, quiet_key_step.
      - rewrite (body_none fc ec st tk Hread). repeat constructor. }
    rewrite value_body.
    destruct (has_frame tk); [destruct (quit_key tk)|]; cbn [fst snd].
    + rewrite app_nil_r. split; [exact Hbody|reflexivity].
    + destruct (IH (mkState (frame_count st + 1)
                      (fst (Fps.update (fps_calculator st) (t_update tk)))
                      (start_time st))) as [Hl Hs].
      split; [apply Forall_app; split; assumption|exact Hs].
    + destruct (IH st) as [Hl Hs].
      split; [apply Forall_app; split; assumption|exact Hs].
Qed.

Lemma loop_events_no_cleanup (t : list event) :
  Forall loop_event t ->
  releases t = 0%nat /\ teardowns t = 0%nat /\
  Forall loop_message (printed t).
Proof.
  induction 1 as [|e t He _ IH].
  - repeat split; constructor.
  - destruct IH as (H1 & H2 & H3).
    destruct e; try contradiction; cbn in *; repeat split;
      try assumption. constructor; assumption.
Qed.

Lemma session_cleanup_counts (fc ec : cascade) (t_init t_start : float)
    (ticks : list tick) (t_end : float) :
  releases (trace (session fc ec t_init t_start ticks t_end)) = 1%nat /\
  teardowns (trace (session fc ec t_init t_start ticks t_end)) = 1%nat.
Proof.
  rewrite trace_session, releases_app, teardowns_app.
  destruct (run_loop_events fc ec ticks (initial_state t_init t_start))
    as [Hloop _].
  destruct (loop_events_no_cleanup _ Hloop) as (-> & -> & _).
  unfold finally.
  destruct (0 <? frame_count
                   (snd (value (run fc ec (initial_state t_init t_start)
                                  ticks))))%Z; split; reflexivity.
Qed.

(** X16: in every session the camera is released once and the windows
    are closed once, after all calls of the loop; the session statistics
    are printed exactly when at least one frame was counted, and they
    report the counter, the time since the start and their quotient. *)
Theorem cleanup_once_after_the_loop :
  forall (face_cascade eye_cascade : cascade) (t_init t_start : float)
         (ticks : list tick) (t_end : float),
    let r := session face_cascade eye_cascade t_init t_start ticks t_end in
    let looped :=
      run face_cascade eye_cascade (initial_state t_init t_start) ticks in
    let n := frame_count (snd (value r)) in
    trace r = trace looped ++ trace (finally (snd (value looped)) t_end) /\
    Forall loop_event (trace looped) /\
    releases (trace r) = 1%nat /\ teardowns (trace r) = 1%nat /\
    ((0 < n)%Z ->
     In (MsgSessionStats n (t_end - t_start)%float
           (if (0 <? t_end - t_start)%float
            then (float_of_int n / (t_end - t_start))%float else 0%float))
        (printed (trace r))) /\
    ((n <= 0)%Z ->
     forall k total avg,
       ~ In (MsgSessionStats k total avg) (printed (trace r))).
Proof.
  intros fc ec t_init t_start ticks t_end r looped n.
  unfold n, r. rewrite value_session, trace_session. fold looped.
  destruct (run_loop_events fc ec ticks (initial_state t_init t_start))
    as [Hloop Hstart].
  fold looped in Hloop, Hstart. cbn [start_time initial_state] in Hstart.
  destruct (loop_events_no_cleanup _ Hloop) as (Hrel & Htear & Hmsgs).
  set (st := snd (value looped)) in *.
  split; [reflexivity|]. split; [exact Hloop|].
  rewrite releases_app, teardowns_app, printed_app, Hrel, Htear.
  unfold finally. rewrite Hstart.
  destruct (Z.ltb_spec 0 (frame_count st)) as [Hpos|Hle];
    (split; [reflexivity|]); (split; [reflexivity|]); split.
  - intros _. apply in_or_app. right. cbn. right. left. reflexivity.
  - intro Habs. lia.
  - intro Habs. lia.
  - intros _ k total avg Hin. apply in_app_or in Hin.
    destruct Hin as [Hin|Hin].
    + rewrite Forall_forall in Hmsgs. exact (Hmsgs _ Hin).
    + cbn in Hin. destruct Hin as [Hin|[Hin|[]]]; discriminate.
Qed.

End WithCV.

End LoopMore.

(** ** Start-up *)

Module StartupFacts.

Import Stdlib.Strings.String.
Import Detect Loop Startup.

Local Open Scope string_scope.

Lemma append_nonempty (a b : string) : b <> "" -> (a ++ b)%string <> "".
Proof.
  intro Hb. destruct a as [|c a]; [exact Hb|]. cbn. discriminate.
Qed.

(** Joining a name that does not start with the separator never gives
    the empty path. *)
Lemma join_step_nonempty (path b : string) :
  b <> "" -> join_step path b <> "".
Proof.
  intro Hb. unfold join_step. destruct (startswith_sep b); [exact Hb|].
  destruct (String.eqb path "" || endswith_sep path).
  - apply append_nonempty, Hb.
  - apply append_nonempty, append_nonempty, Hb.
Qed.

Lemma first_existing_chosen (ex : string -> bool) (l : list string) :
  match first_existing ex l with
  | Some p =>
      exists before after : list string,
        l = (before ++ p :: after)%list /\ ex p = true /\
        Forall (fun q => ex q = false) before
  | None => Forall (fun q => ex q = false) l
  end.
Proof.
  induction l as [|a l IH]; [constructor|]. cbn [first_existing].
  destruct (ex a) eqn:Ea.
  - exists []%list, l. repeat split; [exact Ea|constructor].
  - destruct (first_existing ex l) as [p|].
    + destruct IH as (before & after & -> & Hp & Hb).
      exists (a :: before)%list, after. repeat split; [exact Hp|].
      constructor; assumption.
    + constructor; assumption.
Qed.

Section WithWorld.

Context {cv : CV2} {world : World}.

Lemma svalue_sbind {A B} (m : S A) (k : A -> S B) :
  svalue (sbind m k) = svalue (k (svalue m)).
Proof.
  unfold svalue, sbind. destruct m as [a t1]. cbn [fst].
  destruct (k a). reflexivity.
Qed.

Lemma strace_sbind {A B} (m : S A) (k : A -> S B) :
  strace (sbind m k) = (strace m ++ strace (k (svalue m)))%list.
Proof.
  unfold svalue, strace, sbind. destruct m as [a t1]. cbn [fst snd].
  destruct (k a). reflexivity.
Qed.

Lemma startup_events_app (t1 t2 : list main_event) :
  startup_events (t1 ++ t2) =
  (startup_events t1 ++ startup_events t2)%list.
Proof. apply flat_map_app. Qed.

Lemma session_events_app (t1 t2 : list main_event) :
  session_events (t1 ++ t2) =
  (session_events t1 ++ session_events t2)%list.
Proof. apply flat_map_app. Qed.

Lemma session_events_in_session (t : list event) :
  session_events (List.map InSession t) = t /\
  startup_events (List.map InSession t) = []%list.
Proof.
  induction t as [|e t [IH1 IH2]]; [split; reflexivity|].
  cbn [List.map]. split.
  - change (session_events (InSession e :: List.map InSession t))
      with (e :: session_events (List.map InSession t))%list.
    rewrite IH1. reflexivity.
  - exact IH2.
Qed.

Lemma candidates_nonempty (p : string) :
  In p face_candidates \/ In p eye_candidates -> p <> "".
Proof.
  unfold face_candidates, eye_candidates, os_path_join.
  cbn [fold_left In].
  intros [[<-|[<-|[<-|[]]]]|[<-|[<-|[<-|[]]]]];
    try discriminate; apply join_step_nonempty; discriminate.
Qed.

(** X17: [find_cascade_files] returns, for the face and for the eye
    cascade separately, the first existing file among the project
    directory, the data directory of OpenCV and the system directory, in
    this order, and [None] when none of the three exists. *)
Theorem cascade_files_by_priority :
  chosen face_candidates (fst find_cascade_files) /\
  chosen eye_candidates (snd find_cascade_files).
Proof.
  unfold find_cascade_files, chosen. cbn [fst snd]. split.
  - exact (first_existing_chosen os_path_exists face_candidates).
  - exact (first_existing_chosen os_path_exists eye_candidates).
Qed.

Lemma found_not_falsy :
  forall fp ep : string,
    find_cascade_files = (Some fp, Some ep) ->
    falsy (Some fp) = false /\ falsy (Some ep) = false.
Proof.
  intros fp ep Hfind.
  pose proof (first_existing_chosen os_path_exists
                (every_other possible_paths)) as Hf.
  pose proof (first_existing_chosen os_path_exists
                (every_other_from_1 possible_paths)) as He.
  unfold find_cascade_files in Hfind.
  apply pair_equal_spec in Hfind. destruct Hfind as [Ef Ee].
  rewrite Ef in Hf. rewrite Ee in He.
  destruct Hf as (bf & af & Hlf & _). destruct He as (be & ae & Hle & _).
  change (every_other possible_paths) with face_candidates in Hlf.
  change (every_other_from_1 possible_paths) with eye_candidates in Hle.
  assert (Hfp : fp <> "").
  { apply candidates_nonempty. left. rewrite Hlf. apply in_elt. }
  assert (Hep : ep <> "").
  { apply candidates_nonempty. right. rewrite Hle. apply in_elt. }
  unfold falsy. split; apply String.eqb_neq; assumption.
Qed.

(** The value and the calls of [initialize_cascades], by cases. *)
Lemma initialize_cascades_cases :
  (cascades_available /\
   exists (fp ep : string) (fc ec : cascade),
     find_cascade_files = (Some fp, Some ep) /\
     CascadeClassifier fp = Some fc /\ CascadeClassifier ep = Some ec /\
     svalue initialize_cascades = Normal (Some fc, Some ec) /\
     startup_events (strace initialize_cascades) =
       [SCascadeClassifier fp; SCascadeClassifier ep;
        SPrint (SMsgFaceLoaded fp); SPrint (SMsgEyeLoaded ep)]%list /\
     session_events (strace initialize_cascades) = []%list) \/
  (constructor_raises /\ ~ cascades_available /\
   svalue initialize_cascades = Raises /\
   cameras_opened (startup_events (strace initialize_cascades)) = []%list /\
   properties_set (startup_events (strace initialize_cascades)) = []%list /\
   session_events (strace initialize_cascades) = []%list) \/
  (~ cascades_available /\ ~ constructor_raises /\
   svalue initialize_cascades = Normal (None, None) /\
   cameras_opened (startup_events (strace initialize_cascades)) = []%list /\
   properties_set (startup_events (strace initialize_cascades)) = []%list /\
   session_events (strace initialize_cascades) = []%list /\
   (files_loaded (startup_events (strace initialize_cascades)) = []%list <->
    fst find_cascade_files = None \/ snd find_cascade_files = None)).
Proof.
  unfold initialize_cascades, cascades_available, constructor_raises.
  pose proof found_not_falsy as Hnf.
  destruct find_cascade_files as [[fp|] [ep|]] eqn:Hfind;
    try (right; right; split;
         [intros (fp' & ep' & fc' & ec' & Habs & _); discriminate
         |split;
          [intros (fp' & ep' & Habs & _); discriminate
          |rewrite ?orb_true_r; cbn; repeat split; auto]]).
  destruct (Hnf fp ep eq_refl) as [-> ->]. cbn [orb].
  destruct (CascadeClassifier fp) as [fc|] eqn:Hfc.
  2:{ right. left. split.
      - exists fp, ep. split; [reflexivity|]. left. exact Hfc.
      - split; [|cbn; repeat split].
        intros (fp' & ep' & fc' & ec' & Heq & Hf' & _).
        injection Heq as <- <-. congruence. }
  destruct (CascadeClassifier ep) as [ec|] eqn:Hec.
  2:{ right. left. split.
      - exists fp, ep. split; [reflexivity|]. right.
        split; [congruence|exact Hec].
      - split; [|cbn; repeat split].
        intros (fp' & ep' & fc' & ec' & Heq & _ & He' & _).
        injection Heq as <- <-. congruence. }
  assert (Hnr : ~ (exists face_path eye_path : string,
                     (Some fp, Some ep) = (Some face_path, Some eye_path) /\
                     (CascadeClassifier face_path = None \/
                      CascadeClassifier face_path <> None /\
                      CascadeClassifier eye_path = None))).
  { intros (fp' & ep' & Heq & [Hf'|[_ He']]); injection Heq as <- <-;
      congruence. }
  destruct (cascade_empty fc) eqn:Ef; [|destruct (cascade_empty ec) eqn:Ee].
  - right. right. split.
    + intros (fp' & ep' & fc' & ec' & Heq & Hf' & _ & Hfe & _).
      injection Heq as <- <-. congruence.
    + split; [exact Hnr|]. cbn. repeat split; try discriminate.
      intros [H|H]; discriminate.
  - right. right. split.
    + intros (fp' & ep' & fc' & ec' & Heq & _ & He' & _ & Hee).
      injection Heq as <- <-. congruence.
    + split; [exact Hnr|]. cbn. repeat split; try discriminate.
      intros [H|H]; discriminate.
  - left. split.
    + exists fp, ep, fc, ec. repeat split; assumption.
    + exists fp, ep, fc, ec. repeat split; assumption.
Qed.

(** X18: [initialize_cascades] raises, or returns both classifiers or
    neither; it returns both exactly when both files are found, both
    constructors return and both classifiers built are not empty; it
    raises exactly when both files are found and a constructor raises;
    and when a file is missing it builds no classifier at all and returns
    neither. *)
Theorem cascades_both_or_neither :
  let r := svalue initialize_cascades in
  (r = Raises \/ r = Normal (None, None) \/
   exists fc ec : cascade, r = Normal (Some fc, Some ec)) /\
  ((exists fc ec : cascade, r = Normal (Some fc, Some ec)) <->
   cascades_available) /\
  (r = Raises <-> constructor_raises) /\
  (fst find_cascade_files = None \/ snd find_cascade_files = None ->
   files_loaded (startup_events (strace initialize_cascades)) = []%list /\
   r = Normal (None, None)).
Proof.
  intro r. unfold r.
  destruct initialize_cascades_cases
    as [(Hav & fp & ep & fc & ec & Hfind & _ & _ & Hv & _)
       |[(Hr & Hnav & Hv & _)
        |(Hnav & Hnr & Hv & _ & _ & _ & Hfiles)]].
  - rewrite Hv. split; [right; right; eauto|]. split; [|split].
    + split; [intros _; exact Hav|intros _; eauto].
    + split; [discriminate|]. intro Hr. exfalso.
      destruct Hav as (fp' & ep' & fc' & ec' & Hf' & Hfc' & Hec' & _).
      destruct Hr as (fp'' & ep'' & Hf'' & Hor).
      rewrite Hf' in Hf''. injection Hf'' as <- <-.
      destruct Hor as [H|[_ H]]; congruence.
    + rewrite Hfind. cbn [fst snd]. intros [H|H]; discriminate.
  - rewrite Hv. split; [left; reflexivity|]. split; [|split].
    + split; [intros (fc & ec & H); discriminate|].
      intro Hav. contradiction.
    + split; [intros _; exact Hr|reflexivity].
    + destruct Hr as (fp & ep & -> & _). cbn [fst snd].
      intros [H|H]; discriminate.
  - rewrite Hv. split; [right; left; reflexivity|]. split; [|split].
    + split; [intros (fc & ec & H); discriminate|].
      intro Hav. contradiction.
    + split; [discriminate|]. intro Hr. contradiction.
    + intro Hmiss. split; [apply Hfiles, Hmiss|reflexivity].
Qed.

Lemma initialize_camera_closed (camera_index : Z) :
  isOpened camera_index = false ->
  initialize_camera camera_index =
  (None,
   List.map AtStartup
     [SPrint SMsgCameraInit; SVideoCapture camera_index;
      SPrint SMsgCameraHelp]%list).
Proof. unfold initialize_camera. intros ->. reflexivity. Qed.

Lemma initialize_camera_opened (camera_index : Z) :
  isOpened camera_index = true ->
  initialize_camera camera_index =
  (Some camera_index,
   List.map AtStartup
     [SPrint SMsgCameraInit; SVideoCapture camera_index;
      SCapSet CAP_PROP_FRAME_WIDTH 640; SCapSet CAP_PROP_FRAME_HEIGHT 480;
      SCapSet CAP_PROP_FPS 30;
      SCapGet CAP_PROP_FRAME_WIDTH; SCapGet CAP_PROP_FRAME_HEIGHT;
      SCapGet CAP_PROP_FPS;
      SPrint (SMsgCameraReady (py_int (cap_get CAP_PROP_FRAME_WIDTH))
                (py_int (cap_get CAP_PROP_FRAME_HEIGHT))
                (cap_get CAP_PROP_FPS))]%list).
Proof. unfold initialize_camera. intros ->. reflexivity. Qed.

(** The value and the calls of [main], by cases. *)
Lemma main_cases (t_init t_start : float) (ticks : list tick)
    (t_end : float) :
  let m := main t_init t_start ticks t_end in
  let head :=
    ([AtStartup (SPrint SMsgBanner); AtStartup (SPrint SMsgStage1)] ++
     strace initialize_cascades)%list in
  (constructor_raises /\ ~ cascades_available /\
   svalue m = Uncaught /\ strace m = head) \/
  (~ cascades_available /\ ~ constructor_raises /\
   svalue m = SysExit 1 /\
   strace m = (head ++ [AtStartup (SPrint SMsgInitFailed)])%list) \/
  (cascades_available /\ isOpened 0 = false /\
   svalue m = SysExit 1 /\
   strace m =
     (head ++ [AtStartup (SPrint SMsgStage2)] ++
      strace (initialize_camera 0) ++
      [AtStartup (SPrint SMsgCameraFailed)])%list) \/
  (cascades_available /\ isOpened 0 = true /\
   svalue m = Returned /\
   exists (fp ep : string) (fc ec : cascade),
     find_cascade_files = (Some fp, Some ep) /\
     CascadeClassifier fp = Some fc /\ CascadeClassifier ep = Some ec /\
     strace m =
       (head ++ [AtStartup (SPrint SMsgStage2)] ++
        strace (initialize_camera 0) ++
        [AtStartup (SPrint SMsgStage3);
         AtStartup (SPrint SMsgMonitorReady);
         AtStartup (SPrint SMsgControls)] ++
        List.map InSession
          (trace (session fc ec t_init t_start ticks t_end)))%list).
Proof.
  intros m head. unfold m, head, main.
  rewrite !svalue_sbind, !strace_sbind.
  cbn [strace svalue semit fst snd app].
  change (snd initialize_cascades) with (strace initialize_cascades).
  change (fst initialize_cascades) with (svalue initialize_cascades).
  destruct initialize_cascades_cases
    as [(Hav & fp & ep & fc & ec & Hfind & Hfc & Hec & Hv & _)
       |[(Hr & Hnav & Hv & _)|(Hnav & Hnr & Hv & _)]].
  - right. right. rewrite Hv.
    rewrite !svalue_sbind, !strace_sbind.
    cbn [strace svalue semit fst snd app].
    change (snd (initialize_camera 0)) with (strace (initialize_camera 0)).
    change (fst (initialize_camera 0)) with (svalue (initialize_camera 0)).
    destruct (isOpened 0) eqn:Hopen.
    + right. rewrite (initialize_camera_opened 0 Hopen).
      cbn [svalue strace fst snd].
      split; [exact Hav|]. split; [reflexivity|].
      split; [reflexivity|]. exists fp, ep, fc, ec.
      split; [exact Hfind|]. split; [exact Hfc|]. split; [exact Hec|].
      rewrite !strace_sbind. cbn [strace svalue semit sret in_session
        fst snd app]. rewrite app_nil_r. reflexivity.
    + left. rewrite (initialize_camera_closed 0 Hopen).
      cbn [svalue strace fst snd].
      split; [exact Hav|]. split; [reflexivity|].
      split; [reflexivity|].
      rewrite ?app_nil_r. reflexivity.
  - left. rewrite Hv. split; [exact Hr|]. split; [exact Hnav|].
    split; [reflexivity|].
    cbn [strace svalue semit sret sbind fst snd app].
    rewrite ?app_nil_r. reflexivity.
  - right. left. rewrite Hv. split; [exact Hnav|]. split; [exact Hnr|].
    split; [reflexivity|].
    cbn [strace svalue semit sret sbind fst snd app].
    rewrite ?app_nil_r. reflexivity.
Qed.

Lemma startup_only (t : list main_event) :
  session_events t = []%list -> t = List.map AtStartup (startup_events t).
Proof.
  induction t as [|e t IH]; [reflexivity|]. destruct e as [e|e].
  - intro H. change (startup_events (AtStartup e :: t))
      with (e :: startup_events t)%list.
    cbn [List.map]. f_equal. apply IH. exact H.
  - intro H. discriminate H.
Qed.

Lemma startup_then_session (t : list main_event) (s : list event) :
  session_events t = []%list ->
  startup_events (t ++ List.map InSession s) = startup_events t /\
  session_events (t ++ List.map InSession s) = s /\
  (t ++ List.map InSession s)%list =
    (List.map AtStartup (startup_events t) ++ List.map InSession s)%list.
Proof.
  intro Ht. destruct (session_events_in_session s) as [Hs1 Hs2].
  rewrite startup_events_app, session_events_app, Hs1, Hs2, Ht.
  rewrite app_nil_r. repeat split. f_equal. apply startup_only, Ht.
Qed.

(** X19: [main] returns normally exactly when both cascade files are
    found, both constructors return usable classifiers and camera 0
    opens; it is left by the exception of a constructor exactly when both
    files are found and a constructor raises; in every other case it ends
    with [sys.exit(1)]. *)
Theorem main_returns_iff_startup_succeeds :
  forall (t_init t_start : float) (ticks : list tick) (t_end : float),
    let r := svalue (main t_init t_start ticks t_end) in
    (r = Returned <-> cascades_available /\ isOpened 0 = true) /\
    (r = Uncaught <-> constructor_raises) /\
    (r = SysExit 1 <->
     ~ constructor_raises /\
     ~ (cascades_available /\ isOpened 0 = true)).
Proof.
  intros t_init t_start ticks t_end r. unfold r.
  destruct (main_cases t_init t_start ticks t_end)
    as [(Hr & Hnav & -> & _)
       |[(Hnav & Hnr & -> & _)
        |[(Hav & Hopen & -> & _)|(Hav & Hopen & -> & _)]]].
  - split; [|split]; split; try discriminate; try reflexivity.
    + intros [Hav _]. contradiction.
    + intros _. exact Hr.
    + intros [Hnr _]. contradiction.
  - split; [|split]; split; try discriminate; try reflexivity.
    + intros [Hav _]. contradiction.
    + intro Hr. contradiction.
    + intros _. split; [exact Hnr|]. intros [Hav _]. contradiction.
  - assert (Hnr : ~ constructor_raises).
    { intros (fp & ep & Hf & Hor).
      destruct Hav as (fp' & ep' & fc' & ec' & Hf' & Hfc' & Hec' & _).
      rewrite Hf' in Hf. injection Hf as <- <-.
      destruct Hor as [H|[_ H]]; congruence. }
    split; [|split]; split; try discriminate; try reflexivity.
    + intros [_ Habs]. congruence.
    + intro Hr. contradiction.
    + intros _. split; [exact Hnr|]. intros [_ Habs]. congruence.
  - assert (Hnr : ~ constructor_raises).
    { intros (fp & ep & Hf & Hor).
      destruct Hav as (fp' & ep' & fc' & ec' & Hf' & Hfc' & Hec' & _).
      rewrite Hf' in Hf. injection Hf as <- <-.
      destruct Hor as [H|[_ H]]; congruence. }
    split; [|split]; split; try discriminate; try reflexivity.
    + intros _. split; assumption.
    + intro Hr. contradiction.
    + intros [_ Habs]. exfalso. apply Habs. split; assumption.
Qed.

(** X20: when [main] does not return normally, by [sys.exit(1)] or by the
    exception of a constructor, it has made no call of the loop or of its
    [finally] block and has requested no camera property; it has tried to
    open the camera, once and with index 0, only if the classifiers were
    available. *)
Theorem failed_startup_never_enters_the_loop :
  forall (t_init t_start : float) (ticks : list tick) (t_end : float),
    let m := main t_init t_start ticks t_end in
    svalue m <> Returned ->
    session_events (strace m) = []%list /\
    properties_set (startup_events (strace m)) = []%list /\
    (cascades_available ->
     cameras_opened (startup_events (strace m)) = [0%Z]%list) /\
    (~ cascades_available ->
     cameras_opened (startup_events (strace m)) = []%list).
Proof.
  intros t_init t_start ticks t_end m Hexit. unfold m in *.
  destruct (main_cases t_init t_start ticks t_end)
    as [(Hr & Hnav & _ & ->)
       |[(Hnav & Hnr & _ & ->)
        |[(Hav & Hopen & _ & ->)|(_ & _ & Hv & _)]]].
  - destruct initialize_cascades_cases
      as [(Hav & _)
         |[(_ & _ & _ & Hcam & Hprops & Hsess)
          |(_ & Hnr & _)]];
      [contradiction| |contradiction].
    rewrite !session_events_app, !startup_events_app, Hsess.
    unfold properties_set, cameras_opened in *.
    rewrite !flat_map_app, Hprops, Hcam.
    repeat split; try reflexivity. intro Hav. contradiction.
  - destruct initialize_cascades_cases
      as [(Hav & _)
         |[(Hr & _)
          |(_ & _ & _ & Hcam & Hprops & Hsess & _)]];
      [contradiction|contradiction|].
    rewrite !session_events_app, !startup_events_app, Hsess.
    unfold properties_set, cameras_opened in *.
    rewrite !flat_map_app, Hprops, Hcam.
    repeat split; try reflexivity. intro Hav. contradiction.
  - destruct initialize_cascades_cases
      as [(_ & fp & ep & fc & ec & _ & _ & _ & _ & Hev & Hsess)
         |[(_ & Hnav & _)|(Hnav & _)]];
      [|contradiction|contradiction].
    rewrite (initialize_camera_closed 0 Hopen). cbn [strace snd].
    rewrite !session_events_app, !startup_events_app, Hsess, Hev.
    repeat split; try reflexivity. intro Hnav. contradiction.
  - contradiction.
Qed.

(** X21: when the classifiers are available and camera 0 opens, [main]
    loads the two files found, opens camera 0, requests 640 by 480
    pixels at 30 frames per second, and then runs one session with the
    two classifiers built; all start-up calls come before the calls of
    the session, and the camera is released and the windows are closed
    once. *)
Theorem successful_startup_runs_one_session :
  forall (t_init t_start : float) (ticks : list tick) (t_end : float),
    let m := main t_init t_start ticks t_end in
    cascades_available -> isOpened 0 = true ->
    exists (fp ep : string) (fc ec : cascade),
      find_cascade_files = (Some fp, Some ep) /\
      CascadeClassifier fp = Some fc /\ CascadeClassifier ep = Some ec /\
      session_events (strace m) =
        trace (session fc ec t_init t_start ticks t_end) /\
      strace m =
        (List.map AtStartup (startup_events (strace m)) ++
         List.map InSession (session_events (strace m)))%list /\
      files_loaded (startup_events (strace m)) = [fp; ep]%list /\
      cameras_opened (startup_events (strace m)) = [0%Z]%list /\
      properties_set (startup_events (strace m)) =
        [(CAP_PROP_FRAME_WIDTH, 640%Z); (CAP_PROP_FRAME_HEIGHT, 480%Z);
         (CAP_PROP_FPS, 30%Z)]%list /\
      releases (session_events (strace m)) = 1%nat /\
      teardowns (session_events (strace m)) = 1%nat.
Proof.
  intros t_init t_start ticks t_end m Hav Hopen. unfold m.
  destruct (main_cases t_init t_start ticks t_end)
    as [(_ & Hnav & _)
       |[(Hnav & _)
        |[(_ & Habs & _)
         |(_ & _ & _ & fp & ep & fc & ec & Hfind & Hfc & Hec & ->)]]];
    [contradiction|contradiction|congruence|].
  destruct initialize_cascades_cases
    as [(_ & fp' & ep' & fc' & ec' & Hfind' & _ & _ & _ & Hev & Hsess)
       |[(_ & Hnav & _)|(Hnav & _)]];
    [|contradiction|contradiction].
  rewrite Hfind in Hfind'. injection Hfind' as <- <-.
  exists fp, ep, fc, ec. split; [exact Hfind|].
  split; [exact Hfc|]. split; [exact Hec|].
  rewrite (initialize_camera_opened 0 Hopen). cbn [strace snd].
  set (sess := trace (session fc ec t_init t_start ticks t_end)).
  set (pre := ([AtStartup (SPrint SMsgBanner);
                AtStartup (SPrint SMsgStage1)] ++
               strace initialize_cascades)%list).
  rewrite !app_assoc.
  match goal with
  | |- context [(?t ++ List.map InSession sess)%list] => set (st := t)
  end.
  assert (Hst : session_events st = []%list).
  { unfold st, pre. rewrite !session_events_app, Hsess. reflexivity. }
  destruct (startup_then_session st sess Hst) as (H1 & H2 & H3).
  rewrite H1, H2. split; [reflexivity|]. split; [exact H3|].
  assert (Hstart : startup_events st =
            ([SPrint SMsgBanner; SPrint SMsgStage1] ++
             [SCascadeClassifier fp; SCascadeClassifier ep;
              SPrint (SMsgFaceLoaded fp); SPrint (SMsgEyeLoaded ep)] ++
             [SPrint SMsgStage2; SPrint SMsgCameraInit; SVideoCapture 0;
              SCapSet CAP_PROP_FRAME_WIDTH 640;
              SCapSet CAP_PROP_FRAME_HEIGHT 480; SCapSet CAP_PROP_FPS 30;
              SCapGet CAP_PROP_FRAME_WIDTH; SCapGet CAP_PROP_FRAME_HEIGHT;
              SCapGet CAP_PROP_FPS;
              SPrint (SMsgCameraReady
                        (py_int (cap_get CAP_PROP_FRAME_WIDTH))
                        (py_int (cap_get CAP_PROP_FRAME_HEIGHT))
                        (cap_get CAP_PROP_FPS));
              SPrint SMsgStage3; SPrint SMsgMonitorReady;
              SPrint SMsgControls])%list).
  { unfold st, pre. rewrite !startup_events_app, Hev. reflexivity. }
  rewrite Hstart.
  split; [reflexivity|]. split; [reflexivity|]. split; [reflexivity|].
  apply LoopMore.session_cleanup_counts.
Qed.

End WithWorld.

End StartupFacts.

(** ** The further theorems at concrete inputs *)

Module MoreExamples.

Import Detect Loop Stub.

Lemma reachable_window_positive_witness :
  let calc := Fps.mkFPS (Fps.mkDeque [] 30) 0%float in
  let ts := [1%float; 1%float; 3%float] in
  Fps.init 30 0%float = Some calc /\
  Forall (fun x => (0 <? x)%float = true /\
                   (x =? x)%float = true /\ (x <=? 0)%float = false)
    (Fps.items (Fps.frame_times (fst (Fps.updates calc ts)))).
Proof.
  intros calc ts.
  assert (Hinit : Fps.init 30 0%float = Some calc) by reflexivity.
  split; [exact Hinit|].
  exact (proj1 (FpsMore.reachable_window_positive 30 0%float calc ts
                  Hinit)).
Defined.

Lemma zero_capacity_reports_zero_witness :
  let calc := Fps.mkFPS (Fps.mkDeque [] 0) 0%float in
  Fps.init 0 0%float = Some calc /\
  Fps.items (Fps.frame_times
    (fst (Fps.updates calc [1%float; 2%float]))) = [] /\
  Forall (eq 0%float) (snd (Fps.updates calc [1%float; 2%float])).
Proof.
  intro calc.
  assert (Hinit : Fps.init 0 0%float = Some calc) by reflexivity.
  split; [exact Hinit|].
  exact (FpsMore.zero_capacity_reports_zero 0%float calc
           [1%float; 2%float] Hinit).
Defined.

Lemma window_holds_newest_positive_deltas_witness :
  let self := Fps.mkFPS (Fps.mkDeque [0.125%float] 2) 0%float in
  let ts := [1%float; 1%float; 3%float] in
  Fps.wf self /\
  Fps.items (Fps.frame_times (fst (Fps.updates self ts))) =
    Fps.newest 2 ([0.125%float] ++ Fps.kept (Fps.deltas 0%float ts)) /\
  Fps.last_time (fst (Fps.updates self ts)) = 3%float.
Proof.
  intros self ts.
  assert (Hwf : Fps.wf self) by (unfold Fps.wf; simpl; lia).
  split; [exact Hwf|].
  exact (FpsMore.window_holds_newest_positive_deltas self ts Hwf).
Defined.

(** The run of the last witness: the deltas are 1, 0 and 2; the zero is
    dropped and the oldest sample makes room. *)
Example window_after_three_calls :
  Fps.items (Fps.frame_times
    (fst (Fps.updates (Fps.mkFPS (Fps.mkDeque [0.125%float] 2) 0%float)
            [1%float; 1%float; 3%float]))) =
  [1%float; 2%float].
Proof. reflexivity. Qed.

Lemma face_roi_is_the_face_region_witness :
  let g := mkArray 10 10 (fun i j => Z.of_nat (10 * i + j)) in
  (0 <= 2)%Z /\ (0 <= 3)%Z /\ (0 <= 4)%Z /\ (0 <= 5)%Z /\
  nrows (face_roi g (2, 3, 4, 5)%Z) = 5%nat /\
  ncols (face_roi g (2, 3, 4, 5)%Z) = 4%nat.
Proof.
  intro g.
  assert (H2 : (0 <= 2)%Z) by lia. assert (H3 : (0 <= 3)%Z) by lia.
  assert (H4 : (0 <= 4)%Z) by lia. assert (H5 : (0 <= 5)%Z) by lia.
  repeat (split; [assumption|]).
  apply (proj2 (@DetectMore.face_roi_is_the_face_region g 2 3 4 5
                  H2 H3 H4 H5)); simpl; lia.
Defined.

Lemma eyes_within_frame_witness :
  CV2_laws stub_cv /\ reports_inside stub_cv /\
  In (80, 120, 160, 120)%Z
    (snd (value (detect_faces_and_eyes (black 480 640) true false))) /\
  within_frame 480 640 (80, 120, 160, 120)%Z.
Proof.
  split; [exact Examples.stub_laws|].
  split; [exact Examples.stub_reports_inside|].
  assert (Hin : In (80, 120, 160, 120)%Z
            (snd (value (detect_faces_and_eyes (black 480 640) true
                           false)))).
  { vm_compute. left. reflexivity. }
  split; [exact Hin|].
  apply (@DetectMore.eyes_within_frame stub_cv Examples.stub_laws
           (black 480 640) true false 80 120 160 120
           Examples.stub_reports_inside Hin); lia.
Defined.

Lemma nothing_read_after_quit_witness :
  let tq := frame_tick 60 80 1%float 113 in
  let st := initial_state 0%float 0%float in
  has_frame tq = true /\ quit_key tq = true /\
  run true false st
    ([no_frame_tick] ++ tq :: [frame_tick 60 80 2%float (-1)]) =
  run true false st ([no_frame_tick] ++ [tq]).
Proof.
  intros tq st.
  assert (Hf : has_frame tq = true) by reflexivity.
  assert (Hq : quit_key tq = true) by reflexivity.
  split; [exact Hf|]. split; [exact Hq|].
  exact (@LoopMore.nothing_read_after_quit stub_cv true false
           [no_frame_tick] [frame_tick 60 80 2%float (-1)] tq st Hf Hq).
Defined.

End MoreExamples.

Module StartupExamples.

Import Stdlib.Strings.String.
Import Detect Loop Stub Startup StubWorld.

Local Open Scope string_scope.

(** With the system files installed and a camera, a session of one
    failed capture and one frame on which the quit key is read. *)
Example main_with_system_files :
  svalue (@main stub_cv (stub_world system_files true) 0%float 0%float
            [no_frame_tick; frame_tick 60 80 1%float 113]%list 2%float) =
    Returned /\
  @find_cascade_files stub_cv (stub_world system_files true) =
    (Some "/usr/share/opencv4/haarcascades/haarcascade_frontalface_default.xml",
     Some "/usr/share/opencv4/haarcascades/haarcascade_eye.xml").
Proof. split; reflexivity. Qed.

(** With an eye cascade file that exists and cannot be parsed, [main] is
    left by the exception of the constructor: after the banner and the
    first stage line, both constructors have been called and nothing
    else. *)
Example main_with_broken_eye_file :
  let w :=
    broken_world system_files
      ["/usr/share/opencv4/haarcascades/haarcascade_eye.xml"]%list true in
  let m :=
    @main stub_cv w 0%float 0%float
      [frame_tick 60 80 1%float 113]%list 2%float in
  svalue m = Uncaught /\
  strace m =
    List.map AtStartup
      [SPrint SMsgBanner; SPrint SMsgStage1;
       SCascadeClassifier
         "/usr/share/opencv4/haarcascades/haarcascade_frontalface_default.xml";
       SCascadeClassifier
         "/usr/share/opencv4/haarcascades/haarcascade_eye.xml"]%list.
Proof. split; reflexivity. Qed.

Lemma failed_startup_never_enters_the_loop_witness :
  let m := @main stub_cv (stub_world []%list true) 0%float 0%float
             [frame_tick 60 80 1%float 113]%list 2%float in
  svalue m <> Returned /\
  session_events (strace m) = []%list.
Proof.
  intro m.
  assert (Hexit : svalue m <> Returned) by (vm_compute; discriminate).
  split; [exact Hexit|].
  exact (proj1 (@StartupFacts.failed_startup_never_enters_the_loop stub_cv
                  (stub_world []%list true) 0%float 0%float
                  [frame_tick 60 80 1%float 113]%list 2%float Hexit)).
Defined.

Lemma successful_startup_runs_one_session_witness :
  let w := stub_world system_files true in
  let m := @main stub_cv w 0%float 0%float
             [frame_tick 60 80 1%float 113]%list 2%float in
  @cascades_available stub_cv w /\ @isOpened stub_cv w 0 = true /\
  releases (session_events (strace m)) = 1%nat /\
  teardowns (session_events (strace m)) = 1%nat.
Proof.
  intros w m.
  assert (Hav : @cascades_available stub_cv w).
  { exists "/usr/share/opencv4/haarcascades/haarcascade_frontalface_default.xml",
           "/usr/share/opencv4/haarcascades/haarcascade_eye.xml",
           true, false.
    repeat split. }
  assert (Hopen : @isOpened stub_cv w 0 = true) by reflexivity.
  split; [exact Hav|]. split; [exact Hopen|].
  destruct (@StartupFacts.successful_startup_runs_one_session stub_cv w
              0%float 0%float [frame_tick 60 80 1%float 113]%list 2%float
              Hav Hopen)
    as (fp & ep & fc & ec & _ & _ & _ & _ & _ & _ & _ & _ & Hrel & Htear).
  split; [exact Hrel|exact Htear].
Defined.

End StartupExamples.
